(** * ember-uploader: Uploader and SigningUploader

    A shallow embedding of [addon/uploaders/uploader.js] (the base
    [Uploader] and the [SigningUploader] that extends it), followed by the
    properties of the specification that are checked against it.

    The embedding keeps the shape of the JavaScript: objects live in a heap
    and are passed by reference, methods are computations in a state and
    exception monad over the uploader instance, and the closures handed to
    the transport and to the promise library are first-order data that is
    run when the corresponding event is delivered. *)

From Stdlib Require Import PrimFloat Floats Ascii String.
From stdpp Require Import base option list strings pretty.

Local Open Scope string_scope.
Local Open Scope list_scope.

(** ** JavaScript values and objects *)

Definition loc := nat.

Inductive value :=
| VUndefined
| VNull
| VBool (b : bool)
| VNum (x : float)
| VStr (s : string)
| VRef (l : loc).

(** Objects are data objects: no property of theirs holds a function.
    [own] lists the own enumerable properties in the engine's key order,
    [hidden] the own properties that are not enumerable, [inherited] the
    enumerable properties found through the prototype chain. The chain
    ends in [Object.prototype], for an [Error] after [Error.prototype]:
    a method call on an object ([hasOwnProperty], [toString]) reaches the
    built-in of that name unless a property of the object has the name,
    and then it fails, since what it finds is not callable. *)
Inductive class := CObject | CError.

Record object := Obj {
  o_class : class;
  own : list (string * value);
  hidden : list (string * value);
  inherited : list (string * value)
}.

Definition plain (ps : list (string * value)) : object := Obj CObject ps [] [].

Fixpoint assoc (k : string) (ps : list (string * value)) : option value :=
  match ps with
  | [] => None
  | (k', v) :: ps' => if String.eqb k k' then Some v else assoc k ps'
  end.

Fixpoint assoc_set (k : string) (v : value) (ps : list (string * value))
  : list (string * value) :=
  match ps with
  | [] => [(k, v)]
  | (k', v') :: ps' =>
      if String.eqb k k' then (k', v) :: ps' else (k', v') :: assoc_set k v ps'
  end.

Definition assoc_del (k : string) (ps : list (string * value))
  : list (string * value) :=
  List.filter (fun p => negb (String.eqb k (fst p))) ps.

Definition has_key (k : string) (ps : list (string * value)) : bool :=
  match assoc k ps with Some _ => true | None => false end.

(** The data properties of the built-in prototype that ends the chain:
    [Error.prototype] has a [name] and a [message]. *)
Definition prototype_prop (c : class) (k : string) : value :=
  match c with
  | CObject => VUndefined
  | CError =>
      if String.eqb k "name" then VStr "Error"
      else if String.eqb k "message" then VStr EmptyString
      else VUndefined
  end.

(** [o[k]]: own properties first, then the prototype chain. *)
Definition get_prop (o : object) (k : string) : value :=
  default (prototype_prop (o_class o) k) (assoc k (own o ++ hidden o ++ inherited o)).

(** [o[k] = v]: an existing own property keeps its place, a new one is
    created enumerable, after the existing keys. *)
Definition set_prop (k : string) (v : value) (o : object) : object :=
  if has_key k (hidden o) && negb (has_key k (own o))
  then Obj (o_class o) (own o) (assoc_set k v (hidden o)) (inherited o)
  else Obj (o_class o) (assoc_set k v (own o)) (hidden o) (inherited o).

(** [delete o[k]] removes an own property and leaves the prototype alone. *)
Definition delete_prop (k : string) (o : object) : object :=
  Obj (o_class o) (assoc_del k (own o)) (assoc_del k (hidden o)) (inherited o).

(** [Object.prototype.hasOwnProperty] applied to [o] and [k]. *)
Definition hasOwnProperty (o : object) (k : string) : bool :=
  has_key k (own o) || has_key k (hidden o).

(** Whether the lookup of [k] on [o] stops at a property of the object
    or of its prototypes before it reaches the built-in prototypes. *)
Definition has_prop (o : object) (k : string) : bool :=
  has_key k (own o ++ hidden o ++ inherited o).

(** The keys visited by [for (k in o)]: the own enumerable ones, then the
    inherited enumerable ones that no own property shadows. *)
Definition for_in_keys (o : object) : list string :=
  map fst (own o) ++
  List.filter (fun k => negb (hasOwnProperty o k)) (map fst (inherited o)).

Abbreviation heap := (list object).

Definition truthy (v : value) : bool :=
  match v with
  | VUndefined | VNull => false
  | VBool b => b
  | VNum x => negb (PrimFloat.is_zero x || PrimFloat.is_nan x)
  | VStr s => negb (String.eqb s EmptyString)
  | VRef _ => true
  end.

(** The conversions that the engine performs and that are not code of
    this repository. *)
Record engine := Engine {
  Number_toString : float -> string;
  String_toNumber : string -> float;
  (** [JSON.stringify]; [None] when it throws (a cyclic structure). *)
  JSON_stringify : heap -> value -> option string
}.

(** What a call can throw. A recursion that does not end exhausts the
    stack of the engine, which it reports as a range error. *)
Inductive exn :=
| TypeError (msg : string)
| RangeError (msg : string).

Inductive outcome (A : Type) :=
| Ret (a : A)
| Throw (e : exn).
Arguments Ret {A} a.
Arguments Throw {A} e.

Definition and_then {A B} (r : outcome A) (k : A -> outcome B) : outcome B :=
  match r with
  | Ret a => k a
  | Throw e => Throw e
  end.

(** [String(v)], given the conversion of objects. *)
Definition ToString_with (E : engine) (of_object : loc -> outcome string) (v : value)
  : outcome string :=
  match v with
  | VUndefined => Ret "undefined"
  | VNull => Ret "null"
  | VBool true => Ret "true"
  | VBool false => Ret "false"
  | VNum x => Ret (Number_toString E x)
  | VStr s => Ret s
  | VRef l => of_object l
  end.

(** The conversion of the object at [l] to a string. A [toString]
    property of the object is data, so it is passed over, and [valueOf],
    a property of the object or the built-in, gives no primitive: the
    conversion throws. Otherwise the built-in [toString] runs:
    [Object.prototype.toString], or [Error.prototype.toString], which
    joins the conversions of [name] (Error when undefined) and of
    [message] (empty when undefined). [fuel] bounds the depth of these
    nested conversions. *)
Fixpoint Object_toString (fuel : nat) (E : engine) (h : heap) (l : loc)
  : outcome string :=
  match fuel with
  | O => Throw (RangeError "Maximum call stack size exceeded")
  | S fuel' =>
      match h !! l with
      | None => Ret "[object Object]"
      | Some o =>
          if has_prop o "toString"
          then Throw (TypeError "Cannot convert object to primitive value")
          else
            match o_class o with
            | CObject => Ret "[object Object]"
            | CError =>
                let text (missing : string) (k : string) : outcome string :=
                  match get_prop o k with
                  | VUndefined => Ret missing
                  | v => ToString_with E (Object_toString fuel' E h) v
                  end in
                and_then (text "Error" "name") (fun name =>
                and_then (text EmptyString "message") (fun msg =>
                Ret (if String.eqb name EmptyString then msg
                     else if String.eqb msg EmptyString then name
                     else name +:+ ": " +:+ msg)))
            end
      end
  end.

(** [`${v}`]. Conversions nested deeper than the heap has objects go
    through one object twice and so never end. *)
Definition ToString (E : engine) (h : heap) (v : value) : outcome string :=
  ToString_with E (Object_toString (S (length h)) E h) v.

(** The conversion of an operand of [/]: for an object [valueOf], data
    or built-in, gives no primitive, and the number is read from the
    string that [toString] gives. *)
Definition ToNumber (E : engine) (h : heap) (v : value) : outcome float :=
  match v with
  | VUndefined => Ret nan
  | VNull => Ret 0%float
  | VBool true => Ret 1%float
  | VBool false => Ret 0%float
  | VNum x => Ret x
  | VStr s => Ret (String_toNumber E s)
  | VRef l =>
      and_then (Object_toString (S (length h)) E h l) (fun s =>
      Ret (String_toNumber E s))
  end.

(** ** The transport, the promises and the uploader instance *)

(** What the code hands to the application: file handles. A file argument
    is one handle or a sequence of handles of one of the two kinds that
    [createFormData] recognises by their constructor. *)
Inductive files_arg :=
| OneFile (f : loc)
| FileList (fs : list value)
| FileArray (fs : list value).

Definition FormData := list (string * value).

(** The argument of [XMLHttpRequest.send]. *)
Inductive body :=
| BodyForm (fd : FormData)
| BodyObject (l : loc)
| BodyText (s : string).

(** The [onload]/[onerror] pair installed on a request: by [ajaxPromise]
    for the promise [p] of the upload, or by [sign] for the promise of the
    signing call. *)
Inductive handlers :=
| UploadHandlers (p : nat)
| SignHandlers (p : nat).

(** A listener is an arrow function, whose [this] is the uploader that
    created it, or a [function], whose [this] is the object it is called
    on. The only listener body in the source is [this.didProgress(evt)]. *)
Inductive listener_body := CallDidProgress.
Inductive callback :=
| Arrow (b : listener_body)
| Function (b : listener_body).

Inductive receiver :=
| ThisUploader
| ThisXhrUpload (x : nat).

Record xhr := Xhr {
  x_method : string;
  x_url : value;
  x_headers : list (string * string);
  x_progress : list callback;
  x_handlers : option handlers;
  x_sent : list body;
  x_aborts : nat
}.

Definition new_XMLHttpRequest : xhr := Xhr EmptyString VUndefined [] [] None [] 0.

Inductive reason :=
| RValue (v : value)
| RError (e : exn).

Inductive settled :=
| Pending
| Fulfilled (v : value)
| Rejected (r : reason).

(** A reaction registered on a promise: the [then] callback of
    [SigningUploader.upload] with the promise it derives, or a derived
    promise that takes the outcome of the promise returned by a callback. *)
Inductive reaction :=
| ThenUpload (file : files_arg) (derived : nat)
| Follow (derived : nat).

Record promise := Promise {
  p_state : settled;
  p_reactions : list reaction
}.

(** A listener registered through [Evented]: the only one in the source is
    [() => xhr.abort()], registered with [one]. *)
Record listener := Listener {
  l_event : string;
  l_once : bool;
  l_abort : nat
}.

Record state := State {
  heap_of : heap;
  isUploading : bool;
  isSigning : bool;
  listeners : list listener;
  emitted : list (string * list value);
  xhrs : list xhr;
  promises : list promise
}.

(** The configured properties of an uploader. [ajaxSettings_headers] is
    [get(this, 'ajaxSettings.headers')], [None] when the path is undefined. *)
Record config := Config {
  url : value;
  method : string;
  paramNamespace : option string;
  paramName : string;
  ajaxSettings_headers : option (list (string * string));
  signingUrl : value;
  signingMethod : string;
  signingAjaxSettings_headers : option (list (string * string))
}.

Definition defaults : config :=
  Config VNull "POST" None "file" None (VStr "/sign") "GET" None.

(** ** The state and exception monad *)

Definition M (A : Type) : Type := state -> outcome A * state.

Definition ret {A} (a : A) : M A := fun st => (Ret a, st).
Definition throw {A} (e : exn) : M A := fun st => (Throw e, st).
Definition bind {A B} (m : M A) (k : A -> M B) : M B :=
  fun st =>
    match m st with
    | (Ret a, st') => k a st'
    | (Throw e, st') => (Throw e, st')
    end.

Notation "'do' x <- m ; k" := (bind m (fun x => k))
  (at level 10, x name, m at level 100, k at level 200).
Notation "m ;; k" := (bind m (fun _ => k))
  (at level 100, k at level 200, right associativity).

Definition gets {A} (f : state -> A) : M A := fun st => (Ret (f st), st).
(** A computation that reads the heap and changes nothing. *)
Definition on_heap {A} (f : heap -> outcome A) : M A := fun st => (f (heap_of st), st).
Definition modify (f : state -> state) : M unit := fun st => (Ret tt, f st).

Fixpoint for_each {A} (f : A -> M unit) (xs : list A) : M unit :=
  match xs with
  | [] => ret tt
  | x :: xs' => f x ;; for_each f xs'
  end.

Definition with_heap (f : heap -> heap) (st : state) : state :=
  State (f (heap_of st)) (isUploading st) (isSigning st) (listeners st)
        (emitted st) (xhrs st) (promises st).
Definition with_isUploading (b : bool) (st : state) : state :=
  State (heap_of st) b (isSigning st) (listeners st)
        (emitted st) (xhrs st) (promises st).
Definition with_isSigning (b : bool) (st : state) : state :=
  State (heap_of st) (isUploading st) b (listeners st)
        (emitted st) (xhrs st) (promises st).
Definition with_listeners (f : list listener -> list listener) (st : state) : state :=
  State (heap_of st) (isUploading st) (isSigning st) (f (listeners st))
        (emitted st) (xhrs st) (promises st).
Definition with_emitted (f : list (string * list value) -> list (string * list value))
  (st : state) : state :=
  State (heap_of st) (isUploading st) (isSigning st) (listeners st)
        (f (emitted st)) (xhrs st) (promises st).
Definition with_xhrs (f : list xhr -> list xhr) (st : state) : state :=
  State (heap_of st) (isUploading st) (isSigning st) (listeners st)
        (emitted st) (f (xhrs st)) (promises st).
Definition with_promises (f : list promise -> list promise) (st : state) : state :=
  State (heap_of st) (isUploading st) (isSigning st) (listeners st)
        (emitted st) (xhrs st) (f (promises st)).

(** ** Heap access *)

Definition heap_get (l : loc) (k : string) : M value :=
  gets (fun st => from_option (fun o => get_prop o k) VUndefined (heap_of st !! l)).
Definition heap_set (l : loc) (k : string) (v : value) : M unit :=
  modify (with_heap (alter (set_prop k v) l)).
Definition heap_delete (l : loc) (k : string) : M unit :=
  modify (with_heap (alter (delete_prop k) l)).
Definition alloc (o : object) : M loc :=
  fun st => (Ret (length (heap_of st)), with_heap (fun h => h ++ [o]) st).

(** [v.k] for the property names the source reads from its arguments:
    none of them exists on the wrapper of a primitive. *)
Definition member (v : value) (k : string) : M value :=
  match v with
  | VRef l => heap_get l k
  | VUndefined | VNull =>
      throw (TypeError "Cannot read properties of undefined or null")
  | _ => ret VUndefined
  end.

(** [delete v.k] *)
Definition delete_member (v : value) (k : string) : M unit :=
  match v with
  | VRef l => heap_delete l k
  | VUndefined | VNull =>
      throw (TypeError "Cannot convert undefined or null to object")
  | _ => ret tt
  end.

(** [new Error(message)] *)
Definition new_Error (message : string) : M loc :=
  alloc (Obj CError [] [("message", VStr message)] []).

(** ** XMLHttpRequest and Evented *)

Definition xhr_update (x : nat) (f : xhr -> xhr) : M unit :=
  modify (with_xhrs (alter f x)).

Definition xhr_new : M nat :=
  fun st => (Ret (length (xhrs st)),
             with_xhrs (fun xs => xs ++ [new_XMLHttpRequest]) st).
Definition xhr_open (x : nat) (m : string) (target : value) : M unit :=
  xhr_update x (fun r =>
    Xhr m target (x_headers r) (x_progress r) (x_handlers r) (x_sent r) (x_aborts r)).
Definition xhr_setRequestHeader (x : nat) (k v : string) : M unit :=
  xhr_update x (fun r =>
    Xhr (x_method r) (x_url r) (x_headers r ++ [(k, v)]) (x_progress r)
        (x_handlers r) (x_sent r) (x_aborts r)).
Definition xhr_upload_addEventListener (x : nat) (cb : callback) : M unit :=
  xhr_update x (fun r =>
    Xhr (x_method r) (x_url r) (x_headers r) (x_progress r ++ [cb])
        (x_handlers r) (x_sent r) (x_aborts r)).
Definition xhr_set_handlers (x : nat) (hd : handlers) : M unit :=
  xhr_update x (fun r =>
    Xhr (x_method r) (x_url r) (x_headers r) (x_progress r)
        (Some hd) (x_sent r) (x_aborts r)).
Definition xhr_send (x : nat) (data : body) : M unit :=
  xhr_update x (fun r =>
    Xhr (x_method r) (x_url r) (x_headers r) (x_progress r)
        (x_handlers r) (x_sent r ++ [data]) (x_aborts r)).
(** One more call of the transport's abort primitive. *)
Definition aborted (r : xhr) : xhr :=
  Xhr (x_method r) (x_url r) (x_headers r) (x_progress r)
      (x_handlers r) (x_sent r) (S (x_aborts r)).
Definition xhr_abort (x : nat) : M unit := xhr_update x aborted.

(** [Object.keys(headers).forEach(key => xhr.setRequestHeader(key, headers[key]))];
    [Object.keys(undefined)] throws. *)
Definition set_headers (x : nat) (headers : option (list (string * string))) : M unit :=
  match headers with
  | None => throw (TypeError "Cannot convert undefined or null to object")
  | Some hs => for_each (fun kv => xhr_setRequestHeader x (fst kv) (snd kv)) hs
  end.

Definition fires (name : string) (l : listener) : bool := String.eqb (l_event l) name.

(** [this.one(name, () => xhr.abort())] *)
Definition one (name : string) (x : nat) : M unit :=
  modify (with_listeners (fun ls => ls ++ [Listener name true x])).

(** [this.trigger(name, ...args)]: the application sees the event; the
    listeners registered for it run, those registered with [one] being
    removed as they fire. *)
Definition trigger (name : string) (args : list value) : M unit :=
  modify (with_emitted (fun es => es ++ [(name, args)])) ;;
  do ls <- gets listeners ;
  modify (with_listeners (List.filter (fun l => negb (fires name l && l_once l)))) ;;
  for_each (fun l => xhr_abort (l_abort l)) (List.filter (fires name) ls).

Definition promise_new : M nat :=
  fun st => (Ret (length (promises st)),
             with_promises (fun ps => ps ++ [Promise Pending []]) st).
Definition promise_then (p : nat) (r : reaction) : M unit :=
  modify (with_promises (alter (fun q => Promise (p_state q) (p_reactions q ++ [r])) p)).
(** Settling a promise that is already settled does nothing. *)
Definition settle_in (s : settled) (q : promise) : promise :=
  match p_state q with
  | Pending => Promise s (p_reactions q)
  | _ => q
  end.
Definition settle (p : nat) (s : settled) : M unit :=
  modify (with_promises (alter (settle_in s) p)).

(** [s.match(/get/i)] yields a match exactly when [s] contains the letters
    g, e, t in a row, in either case. *)
Definition lower (c : ascii) : ascii :=
  let n := nat_of_ascii c in
  if (65 <=? n)%nat && (n <=? 90)%nat then ascii_of_nat (n + 32) else c.

Fixpoint prefix_ci (p s : string) : bool :=
  match p, s with
  | EmptyString, _ => true
  | String a p', String b s' => Ascii.eqb (lower a) (lower b) && prefix_ci p' s'
  | String _ _, EmptyString => false
  end.

Fixpoint search_ci (p s : string) : bool :=
  prefix_ci p s ||
  match s with
  | EmptyString => false
  | String _ s' => search_ci p s'
  end.

Definition match_get (s : string) : bool := search_ci "get" s.

(** ** Uploader *)

Module Uploader.
Section Methods.
Context (E : engine) (u : config).

Definition toNamespacedParam (name : string) : string :=
  match paramNamespace u with
  | Some ns => if String.eqb ns EmptyString then name else ns +:+ "[" +:+ name +:+ "]"
  | None => name
  end.

(** [extra.hasOwnProperty(prop)]: the built-in, unless [extra] has a
    property of that name. *)
Definition call_hasOwnProperty (o : object) (prop : string) : outcome bool :=
  if has_prop o "hasOwnProperty"
  then Throw (TypeError "extra.hasOwnProperty is not a function")
  else Ret (hasOwnProperty o prop).

(** The body of [for (const prop in extra)], once for each of [props]. *)
Fixpoint append_own (o : object) (props : list string) (formData : FormData)
  : outcome FormData :=
  match props with
  | [] => Ret formData
  | prop :: props' =>
      and_then (call_hasOwnProperty o prop) (fun is_own =>
      append_own o props'
        (if is_own then formData ++ [(toNamespacedParam prop, get_prop o prop)]
         else formData))
  end.

(** The loop over [extra]. A string enumerates its characters under
    their indices, all of them its own; the other primitives, [null] and
    the default [{}] enumerate nothing. *)
Definition extra_fields (h : heap) (extra : value) : outcome FormData :=
  match extra with
  | VRef l =>
      match h !! l with
      | Some o => append_own o (for_in_keys o) []
      | None => Ret []
      end
  | VStr s =>
      Ret (imap (fun i c => (toNamespacedParam (pretty i), VStr (String c EmptyString)))
                (list_ascii_of_string s))
  | _ => Ret []
  end.

Definition createFormData (h : heap) (files : files_arg) (extra : value)
  : outcome FormData :=
  and_then (extra_fields h extra) (fun formData =>
  match files with
  | FileList fs | FileArray fs =>
      let paramKey := toNamespacedParam (paramName u) +:+ "[]" in
      Ret (formData ++ map (fun f => (paramKey, f)) fs)
  | OneFile f =>
      Ret (formData ++ [(toNamespacedParam (paramName u), VRef f)])
  end).

Definition didUpload (data : value) : M value :=
  modify (with_isUploading false) ;;
  trigger "didUpload" [data] ;;
  ret data.

Definition didError (jqXHR textStatus errorThrown : value) : M value :=
  modify (with_isUploading false) ;;
  match jqXHR with
  | VRef l =>
      heap_set l "then" VNull ;;
      do recorded <- heap_get l "errorThrown" ;
      if truthy recorded then ret tt
      else
        match errorThrown with
        | VStr reason_text =>
            do e <- new_Error reason_text ;
            heap_set l "errorThrown" (VRef e)
        | _ => heap_set l "errorThrown" errorThrown
        end
  | _ => ret tt
  end ;;
  trigger "didError" [jqXHR; textStatus; errorThrown] ;;
  ret jqXHR.

Definition didProgress (event : value) : M unit :=
  match event with
  | VRef l =>
      do loaded <- heap_get l "loaded" ;
      do total <- heap_get l "total" ;
      do loaded <- on_heap (fun h => ToNumber E h loaded) ;
      do total <- on_heap (fun h => ToNumber E h total) ;
      heap_set l "percent" (VNum (loaded / total * 100)%float) ;;
      trigger "progress" [event]
  | VUndefined | VNull =>
      throw (TypeError "Cannot read properties of undefined or null")
  | _ => throw (TypeError "Cannot create property 'percent'")
  end.

Definition abort : M unit :=
  modify (with_isUploading false) ;;
  trigger "isAborting" [].

Definition ajaxPromise (x : nat) (data : body) : M nat :=
  do p <- promise_new ;
  xhr_upload_addEventListener x (Function CallDidProgress) ;;
  one "isAborting" x ;;
  xhr_set_handlers x (UploadHandlers p) ;;
  xhr_send x data ;;
  ret p.

Definition ajax (target : value) (data : body) (meth : string) : M nat :=
  do httpReq <- xhr_new ;
  xhr_open httpReq meth target ;;
  set_headers httpReq (ajaxSettings_headers u) ;;
  ajaxPromise httpReq data.

Definition upload (files : files_arg) (extra : value) : M nat :=
  do data <- on_heap (fun h => createFormData h files extra) ;
  modify (with_isUploading true) ;;
  ajax (url u) (BodyForm data) (method u).

(** Calling a listener: an arrow function keeps the [this] of the
    uploader, a [function] gets the object the event is dispatched on,
    and an [XMLHttpRequestUpload] has no [didProgress] method. *)
Definition run_body (b : listener_body) (this : receiver) (evt : value) : M unit :=
  match b, this with
  | CallDidProgress, ThisUploader => didProgress evt
  | CallDidProgress, ThisXhrUpload _ =>
      throw (TypeError "this.didProgress is not a function")
  end.

Definition call (cb : callback) (target : receiver) (evt : value) : M unit :=
  match cb with
  | Arrow b => run_body b ThisUploader evt
  | Function b => run_body b target evt
  end.
End Methods.
End Uploader.

(** ** SigningUploader *)

Module SigningUploader.
Section Methods.
Context (E : engine) (u : config).

Definition didSign (response : value) : M value :=
  trigger "didSign" [response] ;;
  ret response.

Definition didErrorOnSign (jqXHR textStatus errorThrown : value) : M value :=
  modify (with_isSigning false) ;;
  trigger "didErrorOnSign" [] ;;
  Uploader.didError jqXHR textStatus errorThrown ;;
  ret jqXHR.

(** [file.name], [file.type], [file.size]: a sequence of handles has none
    of them. *)
Definition file_member (file : files_arg) (k : string) : M value :=
  match file with
  | OneFile f => heap_get f k
  | FileList _ | FileArray _ => ret VUndefined
  end.

Definition sign (file : files_arg) (extra : value) : M nat :=
  let target := signingUrl u in
  let meth := signingMethod u in
  let signingAjaxSettings := signingAjaxSettings_headers u in
  do extra <- match extra with
              | VUndefined => alloc (plain [])
              | VRef l => ret l
              | _ => throw (TypeError "Cannot create property 'name'")
              end ;
  do name <- file_member file "name" ; heap_set extra "name" name ;;
  do type <- file_member file "type" ; heap_set extra "type" type ;;
  do size <- file_member file "size" ; heap_set extra "size" size ;;
  do data <- (if match_get meth then ret (BodyObject extra)
              else
                do h <- gets heap_of ;
                match JSON_stringify E h (VRef extra) with
                | Some text => ret (BodyText text)
                | None => throw (TypeError "Converting circular structure to JSON")
                end) ;
  do x <- xhr_new ;
  xhr_open x meth target ;;
  xhr_setRequestHeader x "Content-Type" "application/json" ;;
  set_headers x signingAjaxSettings ;;
  modify (with_isSigning true) ;;
  do p <- promise_new ;
  xhr_set_handlers x (SignHandlers p) ;;
  xhr_send x data ;;
  ret p.

(** The callback that [upload] passes to [then]. *)
Definition upload_then (file : files_arg) (json : value) : M nat :=
  modify (with_isUploading true) ;;
  do endpoint <- member json "endpoint" ;
  do target <-
    (if truthy endpoint then
       delete_member json "endpoint" ;;
       ret endpoint
     else
       do region <- member json "region" ;
       if truthy region then
         do region <- on_heap (fun h => ToString E h region) ;
         do bucket <- member json "bucket" ;
         do bucket <- on_heap (fun h => ToString E h bucket) ;
         delete_member json "region" ;;
         ret (VStr ("https://s3-" +:+ region +:+ ".amazonaws.com/" +:+ bucket))
       else
         do bucket <- member json "bucket" ;
         do bucket <- on_heap (fun h => ToString E h bucket) ;
         ret (VStr ("https://" +:+ bucket +:+ ".s3.amazonaws.com"))) ;
  do data <- on_heap (fun h => Uploader.createFormData u h file json) ;
  Uploader.ajax u target (BodyForm data) (method u).

Definition upload (file : files_arg) (extra : value) : M nat :=
  do signed <- sign file extra ;
  do derived <- promise_new ;
  promise_then signed (ThenUpload file derived) ;;
  ret derived.
End Methods.
End SigningUploader.

(** ** Promise settlement and transport events *)

Section Runtime.
Context (E : engine) (u : config).

Definition react_fulfilled (v : value) (r : reaction) : M unit :=
  match r with
  | ThenUpload file derived =>
      fun st =>
        match SigningUploader.upload_then E u file v st with
        | (Ret inner, st') => promise_then inner (Follow derived) st'
        | (Throw e, st') => settle derived (Rejected (RError e)) st'
        end
  | Follow derived => settle derived (Fulfilled v)
  end.

(** A [then] without a rejection callback passes the reason on. *)
Definition react_rejected (why : reason) (r : reaction) : M unit :=
  match r with
  | ThenUpload _ derived | Follow derived => settle derived (Rejected why)
  end.

Definition pending_reactions (p : nat) : M (option (list reaction)) :=
  gets (fun st =>
          match promises st !! p with
          | Some (Promise Pending rs) => Some rs
          | _ => None
          end).

Definition resolve (p : nat) (v : value) : M unit :=
  do rs <- pending_reactions p ;
  match rs with
  | Some rs => settle p (Fulfilled v) ;; for_each (react_fulfilled v) rs
  | None => ret tt
  end.

Definition reject (p : nat) (why : reason) : M unit :=
  do rs <- pending_reactions p ;
  match rs with
  | Some rs => settle p (Rejected why) ;; for_each (react_rejected why) rs
  | None => ret tt
  end.

(** What the transport reports for a request. [Completed] is the [load]
    event: a response arrived, whatever its HTTP status, and
    [xhr.response] is [response]. [Failed] is the [error] event of a
    request that failed at the network level; the handler is called with
    the event only. [Progress] is an upload progress event. *)
Inductive transport_event :=
| Progress (evt : value)
| Completed (status : nat) (response : value)
| Failed (evt : value).

Definition deliver (x : nat) (ev : transport_event) : M unit :=
  do r <- gets (fun st => xhrs st !! x) ;
  match r, ev with
  | None, _ => ret tt
  | Some r, Progress evt =>
      for_each (fun cb => Uploader.call E cb (ThisXhrUpload x) evt) (x_progress r)
  | Some r, Completed _ response =>
      match x_handlers r with
      | Some (UploadHandlers p) =>
          do json <- Uploader.didUpload response ; resolve p json
      | Some (SignHandlers p) =>
          do json <- SigningUploader.didSign response ; resolve p json
      | None => ret tt
      end
  | Some r, Failed evt =>
      match x_handlers r with
      | Some (UploadHandlers p) =>
          do err <- Uploader.didError evt VUndefined VUndefined ;
          reject p (RValue err)
      | Some (SignHandlers p) =>
          do err <- SigningUploader.didErrorOnSign evt VUndefined VUndefined ;
          reject p (RValue err)
      | None => ret tt
      end
  end.

(** [abort()] called [n] times in a row. *)
Fixpoint abort_times (n : nat) : M unit :=
  match n with
  | O => ret tt
  | S n' => Uploader.abort ;; abort_times n'
  end.
End Runtime.

Definition initial : state := State [] false false [] [] [] [].

(** ** Vocabulary of the statements and sample data *)

(** The requests after each of the listeners [ls] has called [abort] on
    its request. *)
Definition abort_each (ls : list listener) (xs : list xhr) : list xhr :=
  foldl (fun xs l => alter aborted (l_abort l) xs) xs ls.

(** The state after [trigger name args]. *)
Definition triggered (name : string) (args : list value) (st : state) : state :=
  State (heap_of st) (isUploading st) (isSigning st)
        (List.filter (fun l => negb (fires name l && l_once l)) (listeners st))
        (emitted st ++ [(name, args)])
        (abort_each (List.filter (fires name) (listeners st)) (xhrs st))
        (promises st).

(** The object that [sign] augments, and the heap it lives in: the
    caller's [extra], or the fresh [{}] of the default parameter. *)
Definition extra_object (h : heap) (extra : value) : option (loc * heap) :=
  match extra with
  | VUndefined => Some (length h, h ++ [plain []])
  | VRef l => Some (l, h)
  | _ => None
  end.

Definition file_prop (h : heap) (file : files_arg) (k : string) : value :=
  match file with
  | OneFile f => from_option (fun o => get_prop o k) VUndefined (h !! f)
  | FileList _ | FileArray _ => VUndefined
  end.

(** [extra[k] = file[k]] *)
Definition assign_from (file : files_arg) (k : string) (e : loc) (h : heap) : heap :=
  alter (set_prop k (file_prop h file k)) e h.

(** The heap once [extra] carries the name, type and size of the file. *)
Definition augmented (file : files_arg) (e : loc) (h : heap) : heap :=
  assign_from file "size" e (assign_from file "type" e (assign_from file "name" e h)).

(** No request of [st'] that is not a request of [st] has been sent. *)
Definition nothing_sent (st st' : state) : Prop :=
  forall x r, xhrs st' !! x = Some r -> xhrs st !! x = Some r \/ x_sent r = [].

Definition derived_of (r : reaction) : nat :=
  match r with ThenUpload _ d | Follow d => d end.

(** The promises once the reactions [rs] have passed a rejection on. *)
Definition reject_derived (why : reason) (rs : list reaction) (ps : list promise)
  : list promise :=
  foldl (fun ps r => alter (settle_in (Rejected why)) (derived_of r) ps) ps rs.

(** The registry holds nothing but one-shot [isAborting] listeners, the
    only kind that the source registers. *)
Definition quiet (st : state) : Prop :=
  Forall (fun l => l_event l = "isAborting" /\ l_once l = true) (listeners st).

(** Every registered listener aborts a request that exists. *)
Definition bound (st : state) : Prop :=
  Forall (fun l => l_abort l < length (xhrs st)) (listeners st).

(** How many of the listeners [ls] abort the request [x]. *)
Definition aborting (x : nat) (ls : list listener) : nat :=
  length (List.filter (fun l => Nat.eqb (l_abort l) x) ls).

(** The destination that [SigningUploader.upload] derives from a policy
    object, and the policy without the field that selected it. *)
Definition destination (E : engine) (h : heap) (json : object) : outcome value :=
  if truthy (get_prop json "endpoint") then Ret (get_prop json "endpoint")
  else if truthy (get_prop json "region")
       then and_then (ToString E h (get_prop json "region")) (fun region =>
            and_then (ToString E h (get_prop json "bucket")) (fun bucket =>
            Ret (VStr ("https://s3-" +:+ region +:+ ".amazonaws.com/" +:+ bucket))))
       else and_then (ToString E h (get_prop json "bucket")) (fun bucket =>
            Ret (VStr ("https://" +:+ bucket +:+ ".s3.amazonaws.com"))).

Definition stripped (json : object) : object :=
  if truthy (get_prop json "endpoint") then delete_prop "endpoint" json
  else if truthy (get_prop json "region") then delete_prop "region" json
       else json.

(** The promises once the reactions [rs], all of them [Follow], have
    passed a value on. *)
Definition fulfil_derived (v : value) (rs : list reaction) (ps : list promise)
  : list promise :=
  foldl (fun ps r => alter (settle_in (Fulfilled v)) (derived_of r) ps) ps rs.

Definition is_follow (r : reaction) : bool :=
  match r with Follow _ => true | ThenUpload _ _ => false end.

(** What happens to an uploader: the application calls one of its
    methods, or a transport reports an event for one of its requests. *)
Inductive action :=
| DoUpload (files : files_arg) (extra : value)
| DoAbort
| DoAjax (target : value) (data : body) (meth : string)
| DoSignedUpload (file : files_arg) (extra : value)
| DoSign (file : files_arg) (extra : value)
| DoDidUpload (data : value)
| DoDidError (jqXHR textStatus errorThrown : value)
| DoDidProgress (event : value)
| DoDidSign (response : value)
| DoDidErrorOnSign (jqXHR textStatus errorThrown : value)
| Transport (x : nat) (ev : transport_event).

(** The state after an action; an exception leaves it as it was when the
    exception was thrown. *)
Definition perform (E : engine) (u : config) (a : action) (st : state) : state :=
  match a with
  | DoUpload files extra => snd (Uploader.upload u files extra st)
  | DoAbort => snd (Uploader.abort st)
  | DoAjax target data meth => snd (Uploader.ajax u target data meth st)
  | DoSignedUpload file extra => snd (SigningUploader.upload E u file extra st)
  | DoSign file extra => snd (SigningUploader.sign E u file extra st)
  | DoDidUpload data => snd (Uploader.didUpload data st)
  | DoDidError a b c => snd (Uploader.didError a b c st)
  | DoDidProgress event => snd (Uploader.didProgress E event st)
  | DoDidSign response => snd (SigningUploader.didSign response st)
  | DoDidErrorOnSign a b c => snd (SigningUploader.didErrorOnSign a b c st)
  | Transport x ev => snd (deliver E u x ev st)
  end.

(** A new uploader among the objects [h] of the application, after the
    actions [acts]. *)
Definition history (E : engine) (u : config) (h : heap) (acts : list action) : state :=
  foldl (fun st a => perform E u a st) (State h false false [] [] [] []) acts.

(** An engine for the closed examples: none of them converts a number, and
    the one that serialises an object only needs some text to be sent. *)
Definition sample_engine : engine :=
  Engine (fun _ => "NaN") (fun _ => nan) (fun _ _ => Some "{}").

Definition configured : config :=
  Config (VStr "/upload") "POST" None "file" (Some [("X-Token", "t")])
         (VStr "/sign") "GET" (Some [("Authorization", "k")]).

Definition photo : object :=
  plain [("name", VStr "a.png"); ("type", VStr "image/png"); ("size", VNum 3)].

(** ** Auxiliary facts *)

Lemma with_xhrs_compose f g st :
  with_xhrs g (with_xhrs f st) = with_xhrs (fun xs => g (f xs)) st.
Proof. by destruct st. Qed.

Lemma for_each_abort ls st :
  for_each (fun l => xhr_abort (l_abort l)) ls st
  = (Ret tt, with_xhrs (abort_each ls) st).
Proof.
  revert st; induction ls as [|l ls IH]; intros st.
  - by destruct st.
  - cbn [for_each]. unfold bind at 1. unfold xhr_abort at 1, xhr_update, modify.
    rewrite IH, with_xhrs_compose. reflexivity.
Qed.

Lemma trigger_eq name args st :
  trigger name args st = (Ret tt, triggered name args st).
Proof.
  unfold trigger, bind, modify, gets. cbn. rewrite for_each_abort.
  by destruct st.
Qed.

(** Projections of a state built by the setters. *)
Ltac simpl_state :=
  unfold with_heap, with_isUploading, with_isSigning, with_listeners,
    with_emitted, with_xhrs, with_promises in *;
  cbn [heap_of isUploading isSigning listeners emitted xhrs promises] in *.

#[global] Arguments trigger : simpl never.
#[global] Arguments Uploader.ajax : simpl never.

Lemma abort_each_length ls xs : length (abort_each ls xs) = length xs.
Proof.
  revert xs; induction ls as [|l ls IH]; intros xs; cbn; [done|].
  unfold abort_each in IH. by rewrite IH, length_alter.
Qed.

Lemma assoc_app k ps qs :
  assoc k (ps ++ qs) = match assoc k ps with Some v => Some v | None => assoc k qs end.
Proof.
  induction ps as [|[k' v] ps IH]; cbn; [done|].
  by destruct (String.eqb k k').
Qed.

Lemma assoc_set_eq k v ps : assoc k (assoc_set k v ps) = Some v.
Proof.
  induction ps as [|[k' v'] ps IH]; cbn.
  - by rewrite String.eqb_refl.
  - destruct (String.eqb k k') eqn:Hk; cbn; by rewrite Hk.
Qed.

Lemma assoc_set_ne k k' v ps :
  String.eqb k' k = false -> assoc k' (assoc_set k v ps) = assoc k' ps.
Proof.
  intros Hne. induction ps as [|[k0 v0] ps IH]; cbn.
  - by rewrite Hne.
  - destruct (String.eqb k k0) eqn:Hk; cbn; [|by rewrite IH].
    apply String.eqb_eq in Hk. subst k0. by rewrite Hne.
Qed.

Lemma assoc_del_ne k k' ps :
  String.eqb k k' = false -> assoc k' (assoc_del k ps) = assoc k' ps.
Proof.
  intros Hne. unfold assoc_del.
  induction ps as [|[k0 v0] ps IH]; cbn; [done|].
  destruct (String.eqb k k0) eqn:Hk; cbn.
  - apply String.eqb_eq in Hk. subst k0.
    rewrite String.eqb_sym, Hne. exact IH.
  - by rewrite IH.
Qed.

Lemma get_set_prop_eq k v o : get_prop (set_prop k v o) k = v.
Proof.
  unfold get_prop, set_prop, has_key.
  destruct (assoc k (hidden o)) eqn:Hh, (assoc k (own o)) eqn:Ho; cbn;
    rewrite !assoc_app, ?assoc_set_eq, ?Ho; done.
Qed.

Lemma get_set_prop_ne k k' v o :
  String.eqb k' k = false -> get_prop (set_prop k v o) k' = get_prop o k'.
Proof.
  intros Hne. unfold get_prop, set_prop.
  destruct (has_key k (hidden o) && negb (has_key k (own o))); cbn;
    rewrite !assoc_app, ?assoc_set_ne by done; done.
Qed.

Lemma get_delete_prop_ne k k' o :
  String.eqb k k' = false -> get_prop (delete_prop k o) k' = get_prop o k'.
Proof.
  intros Hne. unfold get_prop, delete_prop. cbn.
  by rewrite !assoc_app, !assoc_del_ne.
Qed.

Lemma alter_last {A} (f : A -> A) (xs : list A) (x : A) :
  alter f (length xs) (xs ++ [x]) = xs ++ [f x].
Proof. induction xs as [|y xs IH]; cbn; [done|]. by f_equal. Qed.

Lemma set_headers_last hs : forall h up sg ls em xs ps r,
  for_each (fun kv => xhr_setRequestHeader (length xs) (fst kv) (snd kv)) hs
           (State h up sg ls em (xs ++ [r]) ps)
  = (Ret tt,
     State h up sg ls em
           (xs ++ [Xhr (x_method r) (x_url r) (x_headers r ++ hs) (x_progress r)
                       (x_handlers r) (x_sent r) (x_aborts r)]) ps).
Proof.
  induction hs as [|[k v] hs IH]; intros h up sg ls em xs ps r.
  - cbn. rewrite app_nil_r. by destruct r.
  - cbn [for_each]. unfold bind at 1.
    unfold xhr_setRequestHeader at 1, xhr_update, modify, with_xhrs. cbn.
    rewrite alter_last, IH. cbn. by rewrite <- app_assoc.
Qed.

(** [ajax] with a configured header mapping: the request is opened, gets
    the configured headers, the progress listener, the one-shot
    [isAborting] listener and the handlers of a fresh promise, and is sent. *)
Lemma ajax_configured u hs target data meth st :
  ajaxSettings_headers u = Some hs ->
  Uploader.ajax u target data meth st
  = (Ret (length (promises st)),
     State (heap_of st) (isUploading st) (isSigning st)
           (listeners st ++ [Listener "isAborting" true (length (xhrs st))])
           (emitted st)
           (xhrs st ++ [Xhr meth target hs [Function CallDidProgress]
                            (Some (UploadHandlers (length (promises st))))
                            [data] 0])
           (promises st ++ [Promise Pending []])).
Proof.
  intros Hhs. destruct st as [h up sg ls em xs ps].
  unfold Uploader.ajax, Uploader.ajaxPromise, set_headers. rewrite Hhs.
  unfold bind, xhr_new, xhr_open, xhr_update, modify, with_xhrs. cbn.
  rewrite alter_last. cbn. rewrite set_headers_last. cbn.
  unfold promise_new, xhr_upload_addEventListener, one, xhr_set_handlers,
    xhr_send, xhr_update, modify, with_xhrs, with_promises, with_listeners, ret.
  cbn. rewrite !alter_last. reflexivity.
Qed.

(** [ajax] without one: [Object.keys] throws once the request is opened. *)
Lemma ajax_unconfigured u target data meth st :
  ajaxSettings_headers u = None ->
  Uploader.ajax u target data meth st
  = (Throw (TypeError "Cannot convert undefined or null to object"),
     with_xhrs (fun xs => xs ++ [Xhr meth target [] [] None [] 0]) st).
Proof.
  intros Hhs. destruct st as [h up sg ls em xs ps].
  unfold Uploader.ajax, set_headers. rewrite Hhs.
  unfold bind, xhr_new, xhr_open, xhr_update, modify, with_xhrs, throw. cbn.
  by rewrite alter_last.
Qed.

(** [sign] with configured signing headers, an [extra] that can take
    properties and data that can be serialised. *)
Lemma sign_configured E u hs file extra st e h0 data :
  signingAjaxSettings_headers u = Some hs ->
  extra_object (heap_of st) extra = Some (e, h0) ->
  (if match_get (signingMethod u) then Some (BodyObject e)
   else BodyText <$> JSON_stringify E (augmented file e h0) (VRef e)) = Some data ->
  SigningUploader.sign E u file extra st
  = (Ret (length (promises st)),
     State (augmented file e h0) (isUploading st) true (listeners st) (emitted st)
           (xhrs st ++ [Xhr (signingMethod u) (signingUrl u)
                            (("Content-Type", "application/json") :: hs) []
                            (Some (SignHandlers (length (promises st))))
                            [data] 0])
           (promises st ++ [Promise Pending []])).
Proof.
  intros Hhs Hextra Hdata. destruct st as [h up sg ls em xs ps].
  assert (Hrun :
    match extra with
    | VUndefined => alloc (plain [])
    | VRef l => ret l
    | _ => throw (TypeError "Cannot create property 'name'")
    end (State h up sg ls em xs ps)
    = (Ret e, State h0 up sg ls em xs ps)).
  { destruct extra; cbn in Hextra; try discriminate;
      injection Hextra as <- <-; reflexivity. }
  unfold SigningUploader.sign. unfold bind at 1. rewrite Hrun.
  assert (Hfile : forall k h1 up sg ls em xs ps,
    SigningUploader.file_member file k (State h1 up sg ls em xs ps)
    = (Ret (file_prop h1 file k), State h1 up sg ls em xs ps)).
  { intros. by destruct file. }
  unfold bind at 1. rewrite Hfile. unfold bind at 1.
  unfold heap_set at 1, modify, with_heap. cbn [heap_of isUploading isSigning listeners emitted xhrs promises].
  unfold bind at 1. rewrite Hfile. unfold bind at 1.
  unfold heap_set at 1, modify, with_heap. cbn [heap_of isUploading isSigning listeners emitted xhrs promises].
  unfold bind at 1. rewrite Hfile. unfold bind at 1.
  unfold heap_set at 1, modify, with_heap. cbn [heap_of isUploading isSigning listeners emitted xhrs promises].
  fold (assign_from file "name" e h0).
  fold (assign_from file "type" e (assign_from file "name" e h0)).
  fold (assign_from file "size" e (assign_from file "type" e (assign_from file "name" e h0))).
  fold (augmented file e h0).
  set (h3 := augmented file e h0) in *.
  assert (Hd :
    (if match_get (signingMethod u) then ret (BodyObject e)
     else do h <- gets heap_of ;
          match JSON_stringify E h (VRef e) with
          | Some text => ret (BodyText text)
          | None => throw (TypeError "Converting circular structure to JSON")
          end) (State h3 up sg ls em xs ps)
    = (Ret data, State h3 up sg ls em xs ps)).
  { destruct (match_get (signingMethod u)).
    - by injection Hdata as <-.
    - unfold bind, gets. cbn. destruct (JSON_stringify E h3 (VRef e)); cbn in Hdata;
        [by injection Hdata as <-|discriminate]. }
  unfold bind at 1. rewrite Hd.
  unfold set_headers. rewrite Hhs.
  unfold bind, xhr_new, xhr_open, xhr_setRequestHeader, xhr_update, modify, with_xhrs.
  cbn. rewrite !alter_last. cbn.
  pose proof (set_headers_last hs h3 up sg ls em xs ps
    (Xhr (signingMethod u) (signingUrl u) [("Content-Type", "application/json")] [] None [] 0))
    as Hset.
  unfold xhr_setRequestHeader, xhr_update, modify, with_xhrs in Hset. cbn in Hset.
  rewrite Hset. cbn.
  unfold promise_new, xhr_set_handlers, xhr_send, xhr_update, modify, with_xhrs,
    with_promises, with_isSigning, ret.
  cbn. rewrite !alter_last. reflexivity.
Qed.

Lemma nothing_sent_same st st' : xhrs st' = xhrs st -> nothing_sent st st'.
Proof. intros Heq x r Hr. left. by rewrite <- Heq. Qed.

Lemma nothing_sent_push st st' r :
  xhrs st' = xhrs st ++ [r] -> x_sent r = [] -> nothing_sent st st'.
Proof.
  intros Heq Hr x r' Hx. rewrite Heq in Hx.
  apply lookup_app_Some in Hx as [Hx|[_ Hx]]; [by left|right].
  destruct (x - length (xhrs st)); cbn in Hx; [|done].
  by injection Hx as <-.
Qed.

(** [sign] without configured signing headers throws a type error on every
    input, and no later than at [Object.keys]. *)
Lemma sign_unconfigured E u file extra st :
  signingAjaxSettings_headers u = None ->
  exists msg st',
    SigningUploader.sign E u file extra st = (Throw (TypeError msg), st')
    /\ promises st' = promises st
    /\ isSigning st' = isSigning st
    /\ nothing_sent st st'.
Proof.
  intros Hhs. destruct st as [h up sg ls em xs ps].
  unfold SigningUploader.sign, set_headers. rewrite Hhs.
  destruct extra as [| |b|x|s|l];
    try (eexists _, _; split; [reflexivity|];
         repeat split; by apply nothing_sent_same).
  all: destruct file as [f|fs|fs];
    unfold bind, alloc, ret, throw, gets, heap_get, heap_set, modify, with_heap,
      SigningUploader.file_member, xhr_new, xhr_open, xhr_setRequestHeader,
      xhr_update, with_xhrs;
    cbn;
    destruct (match_get (signingMethod u)); cbn;
    try (lazymatch goal with
         | |- context [JSON_stringify ?E ?h ?v] => destruct (JSON_stringify E h v)
         end; cbn);
    rewrite ?alter_last; cbn;
    eexists _, _; (split; [reflexivity|]); cbn;
    (repeat split; try done);
    first [ by apply nothing_sent_same
          | by eapply nothing_sent_push; cbn; [reflexivity|] ].
Qed.

Lemma heap_set_lookup k v l (h : heap) o :
  h !! l = Some o -> alter (set_prop k v) l h !! l = Some (set_prop k v o).
Proof. intros Hl. by rewrite list_lookup_alter_eq, Hl. Qed.

Lemma has_key_In k ps : In k (map fst ps) -> has_key k ps = true.
Proof.
  unfold has_key. induction ps as [|[k' v] ps IH]; cbn; [done|].
  intros [->|Hin]; [by rewrite String.eqb_refl|].
  destruct (String.eqb k k'); [done|by apply IH].
Qed.

Lemma own_fields_of_keys o (g : string -> string) ks :
  (forall k, In k ks -> hasOwnProperty o k = true) ->
  flat_map (fun prop => if hasOwnProperty o prop
                        then [(g prop, get_prop o prop)] else []) ks
  = map (fun k => (g k, get_prop o k)) ks.
Proof.
  induction ks as [|k ks IH]; intros Hown; cbn; [done|].
  rewrite (Hown k) by (by left). cbn. f_equal. apply IH.
  intros k' Hk'. apply Hown. by right.
Qed.

Lemma inherited_fields_skipped o (g : string -> string) ks :
  flat_map (fun prop => if hasOwnProperty o prop
                        then [(g prop, get_prop o prop)] else [])
           (List.filter (fun k => negb (hasOwnProperty o k)) ks)
  = [].
Proof.
  induction ks as [|k ks IH]; cbn; [done|].
  destruct (hasOwnProperty o k) eqn:Hk; cbn; [done|]. by rewrite Hk.
Qed.

Lemma alter_insert {A} (f : A -> A) (l : nat) (xs : list A) (x : A) :
  xs !! l = Some x -> alter f l xs = <[l := f x]> xs.
Proof.
  revert l; induction xs as [|y xs IH]; intros [|l]; cbn; try done.
  - by intros [= ->].
  - intros Hl. f_equal. by apply IH.
Qed.

Lemma sign_data_exists (E : engine) (u : config) (h : heap) (e : loc) :
  (match_get (signingMethod u) = false -> is_Some (JSON_stringify E h (VRef e))) ->
  exists data,
    (if match_get (signingMethod u) then Some (BodyObject e)
     else BodyText <$> JSON_stringify E h (VRef e)) = Some data
    /\ (if match_get (signingMethod u) then data = BodyObject e
        else exists text, JSON_stringify E h (VRef e) = Some text /\ data = BodyText text).
Proof.
  intros Hjson. destruct (match_get (signingMethod u)); [by eexists|].
  destruct (Hjson eq_refl) as [text Htext]. rewrite Htext.
  exists (BodyText text). split; [done|by exists text].
Qed.

(** [didError] changes the heap and the upload flag and triggers its
    event; everything else in the state is as the event leaves it. *)
Lemma didError_frame errObj ts et st :
  exists h',
    Uploader.didError errObj ts et st
    = (Ret errObj,
       triggered "didError" [errObj; ts; et]
         (State h' false (isSigning st) (listeners st) (emitted st)
                (xhrs st) (promises st))).
Proof.
  destruct st as [h up sg ls em xs ps]. unfold Uploader.didError.
  destruct errObj as [| |b|x|s|l];
    try (unfold bind, modify, ret; simpl_state; rewrite trigger_eq; by eexists).
  unfold bind at 1. unfold modify at 1.
  unfold bind at 1.
  unfold bind at 1. unfold heap_set at 1, modify. unfold bind at 1, heap_get, gets.
  simpl_state.
  destruct (truthy _).
  - unfold ret at 1. unfold bind. rewrite trigger_eq. by eexists.
  - destruct et; unfold bind, new_Error, alloc, heap_set, modify; simpl_state;
      rewrite trigger_eq; by eexists.
Qed.

Lemma alter_snoc2_fst {A} (f : A -> A) (xs : list A) (a b : A) :
  alter f (length xs) (xs ++ [a; b]) = xs ++ [f a; b].
Proof. induction xs as [|y xs IH]; cbn; [done|]. by f_equal. Qed.

Lemma alter_snoc2_snd {A} (f : A -> A) (xs : list A) (a b : A) :
  alter f (S (length xs)) (xs ++ [a; b]) = xs ++ [a; f b].
Proof. induction xs as [|y xs IH]; cbn; [done|]. by f_equal. Qed.

Lemma lookup_snoc2_fst {A} (xs : list A) (a b : A) :
  (xs ++ [a; b]) !! length xs = Some a.
Proof. by rewrite list_lookup_middle. Qed.

Lemma lookup_snoc2_snd {A} (xs : list A) (a b : A) :
  (xs ++ [a; b]) !! S (length xs) = Some b.
Proof.
  rewrite lookup_app_r by lia.
  replace (S (length xs) - length xs) with 1 by lia. done.
Qed.

Lemma with_promises_compose f g st :
  with_promises g (with_promises f st) = with_promises (fun ps => g (f ps)) st.
Proof. by destruct st. Qed.

Lemma for_each_react_rejected why rs st :
  for_each (react_rejected why) rs st
  = (Ret tt, with_promises (reject_derived why rs) st).
Proof.
  revert st; induction rs as [|r rs IH]; intros st.
  - by destruct st.
  - cbn [for_each]. unfold bind at 1.
    replace (react_rejected why r st)
      with (Ret tt, with_promises (alter (settle_in (Rejected why)) (derived_of r)) st)
      by (by destruct r).
    rewrite IH, with_promises_compose. reflexivity.
Qed.

Lemma reject_derived_settled why rs : forall ps p q,
  ps !! p = Some q -> p_state q <> Pending ->
  reject_derived why rs ps !! p = Some q.
Proof.
  induction rs as [|r rs IH]; intros ps p q Hp Hq; cbn; [done|].
  apply IH; [|done].
  destruct (decide (derived_of r = p)) as [->|Hne].
  - rewrite list_lookup_alter_eq, Hp. cbn. f_equal.
    unfold settle_in. by destruct (p_state q).
  - by rewrite list_lookup_alter_ne.
Qed.

(** Rejecting a pending promise leaves it rejected. *)
Lemma reject_pending (why : reason) (p : nat) (rs : list reaction) (st : state) :
  promises st !! p = Some (Promise Pending rs) ->
  exists ps',
    reject p why st = (Ret tt, with_promises (fun _ => ps') st)
    /\ p_state <$> ps' !! p = Some (Rejected why).
Proof.
  intros Hp. unfold reject, pending_reactions. unfold bind at 1, gets at 1.
  rewrite Hp. unfold bind, settle, modify.
  rewrite for_each_react_rejected, with_promises_compose.
  exists (reject_derived why rs (alter (settle_in (Rejected why)) p (promises st))).
  split; [by destruct st|].
  assert (Hq : alter (settle_in (Rejected why)) p (promises st) !! p
               = Some (Promise (Rejected why) rs))
    by (by rewrite list_lookup_alter_eq, Hp).
  by rewrite (reject_derived_settled _ _ _ _ _ Hq).
Qed.

Lemma abort_each_app ls1 ls2 xs :
  abort_each (ls1 ++ ls2) xs = abort_each ls2 (abort_each ls1 xs).
Proof. unfold abort_each. apply foldl_app. Qed.

Lemma abort_each_other x ls : forall xs,
  Forall (fun l => l_abort l <> x) ls -> abort_each ls xs !! x = xs !! x.
Proof.
  induction ls as [|l ls IH]; intros xs Hls; cbn; [done|].
  apply Forall_cons in Hls as [Hl Hls].
  unfold abort_each in IH. rewrite IH by done.
  by rewrite list_lookup_alter_ne.
Qed.

Lemma Forall_filter_keep {A} (P : A -> Prop) (f : A -> bool) (xs : list A) :
  Forall P xs -> Forall P (List.filter f xs).
Proof.
  induction 1 as [|y ys Hy Hys IH]; cbn; [constructor|].
  destruct (f y); [by constructor|done].
Qed.

Lemma abort_eq st :
  Uploader.abort st = (Ret tt, triggered "isAborting" [] (with_isUploading false st)).
Proof. unfold Uploader.abort, bind, modify. by rewrite trigger_eq. Qed.

(** Once no registered listener aborts the request [x], calls of [abort]
    leave its transport alone. *)
Lemma abort_times_other x k n : forall st,
  x_aborts <$> xhrs st !! x = Some k ->
  Forall (fun l => l_abort l <> x) (listeners st) ->
  exists st',
    abort_times n st = (Ret tt, st')
    /\ x_aborts <$> xhrs st' !! x = Some k
    /\ Forall (fun l => l_abort l <> x) (listeners st')
    /\ (isUploading st = false -> isUploading st' = false)
    /\ (0 < n -> isUploading st' = false).
Proof.
  induction n as [|n IH]; intros st Hk Hls.
  - exists st. repeat split; [done..|lia].
  - cbn [abort_times]. unfold bind at 1. rewrite abort_eq.
    destruct (IH (triggered "isAborting" [] (with_isUploading false st)))
      as (st' & Hrun & Hk' & Hls' & Hflag & _).
    + destruct st. unfold triggered. simpl_state.
      rewrite abort_each_other by (by apply Forall_filter_keep). done.
    + destruct st. unfold triggered. simpl_state. by apply Forall_filter_keep.
    + exists st'. split; [done|]. split; [done|]. split; [done|].
      assert (isUploading st' = false) by (apply Hflag; by destruct st).
      done.
Qed.

(** The loop over [extra] when [hasOwnProperty] is the built-in. *)
Lemma append_own_builtin (u : config) (o : object) (ks : list string) :
  has_prop o "hasOwnProperty" = false ->
  forall fd,
    Uploader.append_own u o ks fd
    = Ret (fd ++ flat_map (fun prop =>
                             if hasOwnProperty o prop
                             then [(Uploader.toNamespacedParam u prop, get_prop o prop)]
                             else []) ks).
Proof.
  intros Hcall. induction ks as [|k ks IH]; intros fd; cbn.
  - by rewrite app_nil_r.
  - unfold Uploader.call_hasOwnProperty. rewrite Hcall. cbn [and_then].
    rewrite IH. destruct (hasOwnProperty o k); cbn; [|done].
    by rewrite <- app_assoc.
Qed.

(** The fields of an [extra] object: its own enumerable properties. *)
Lemma extra_fields_own (u : config) (h : heap) (l : loc) (o : object) :
  h !! l = Some o ->
  has_prop o "hasOwnProperty" = false ->
  Uploader.extra_fields u h (VRef l)
  = Ret (map (fun k => (Uploader.toNamespacedParam u k, get_prop o k)) (map fst (own o))).
Proof.
  intros Hl Hcall. unfold Uploader.extra_fields, for_in_keys. rewrite Hl.
  rewrite (append_own_builtin u o _ Hcall). cbn [app]. f_equal.
  rewrite flat_map_app, inherited_fields_skipped, app_nil_r.
  apply own_fields_of_keys. intros k Hk.
  unfold hasOwnProperty. by rewrite (has_key_In _ _ Hk).
Qed.

(** The callback of [SigningUploader.upload] on a policy object: the
    destination is derived, the field that selected it deleted, and the
    form data built, before [ajax] is called. *)
Lemma upload_then_run (E : engine) (u : config) (file : files_arg) (l : loc)
    (json : object) (st : state) :
  heap_of st !! l = Some json ->
  SigningUploader.upload_then E u file (VRef l) st
  = match destination E (heap_of st) json with
    | Throw e => (Throw e, with_isUploading true st)
    | Ret target =>
        let st1 := State (<[l := stripped json]> (heap_of st)) true (isSigning st)
                         (listeners st) (emitted st) (xhrs st) (promises st) in
        match Uploader.createFormData u (heap_of st1) file (VRef l) with
        | Throw e => (Throw e, st1)
        | Ret data => Uploader.ajax u target (BodyForm data) (method u) st1
        end
    end.
Proof.
  intros Hl. destruct st as [h up sg ls em xs ps]. simpl_state.
  unfold SigningUploader.upload_then, member, delete_member, destination, stripped.
  unfold bind at 1. unfold modify at 1.
  unfold bind at 1. unfold heap_get at 1, gets at 1.
  simpl_state. rewrite Hl. cbn [from_option].
  destruct (truthy (get_prop json "endpoint")).
  - unfold bind, heap_delete, modify, on_heap, ret. simpl_state.
    rewrite (alter_insert _ _ _ _ Hl).
    by destruct (Uploader.createFormData u _ file (VRef l)).
  - unfold bind at 1. unfold bind at 1. unfold heap_get at 1, gets at 1.
    simpl_state. rewrite Hl. cbn [from_option].
    destruct (truthy (get_prop json "region")).
    + unfold bind, heap_get, heap_delete, modify, gets, on_heap, ret. simpl_state.
      destruct (ToString E h (get_prop json "region")) as [region|e]; [|done].
      rewrite Hl. cbn [from_option and_then].
      destruct (ToString E h (get_prop json "bucket")) as [bucket|e]; [|done].
      cbn [and_then]. rewrite (alter_insert _ _ _ _ Hl).
      by destruct (Uploader.createFormData u _ file (VRef l)).
    + unfold bind, heap_get, modify, gets, on_heap, ret. simpl_state.
      rewrite Hl. cbn [from_option].
      destruct (ToString E h (get_prop json "bucket")) as [bucket|e]; [|done].
      cbn [and_then]. rewrite list_insert_id by done.
      by destruct (Uploader.createFormData u _ file (VRef l)).
Qed.

(** ** Checked properties *)

(** *** Destination of a signed upload *)

(** C1 (as amended). For a signing response object [json],
    [SigningUploader.upload] continues as follows, in this order: if
    [json.endpoint] is truthy the destination is that value as it is and
    [endpoint] is deleted from [json]; else if [json.region] is truthy the
    destination is https://s3-REGION.amazonaws.com/BUCKET and [region] is
    deleted; otherwise the destination is https://BUCKET.s3.amazonaws.com
    and nothing is deleted. REGION and BUCKET are the strings that
    [json.region] and [json.bucket] convert to. [json], after the
    deletion, is the extra form data of the upload, and [bucket] is in it
    whenever it was in [json]. This is so whenever the conversions that
    the rule needs return and the form data can be built from [json]. *)
Theorem upload_resolves_policy (E : engine) (u : config) (hs : list (string * string))
    (file : files_arg) (l : loc) (json : object) (st : state)
    (region bucket : string) (fields : FormData) :
  ajaxSettings_headers u = Some hs ->
  heap_of st !! l = Some json ->
  let target :=
    if truthy (get_prop json "endpoint") then get_prop json "endpoint"
    else if truthy (get_prop json "region")
         then VStr ("https://s3-" +:+ region +:+ ".amazonaws.com/" +:+ bucket)
         else VStr ("https://" +:+ bucket +:+ ".s3.amazonaws.com") in
  let policy :=
    if truthy (get_prop json "endpoint") then delete_prop "endpoint" json
    else if truthy (get_prop json "region") then delete_prop "region" json
         else json in
  (truthy (get_prop json "endpoint") = false ->
   (truthy (get_prop json "region") = true ->
    ToString E (heap_of st) (get_prop json "region") = Ret region)
   /\ ToString E (heap_of st) (get_prop json "bucket") = Ret bucket) ->
  Uploader.createFormData u (<[l := policy]> (heap_of st)) file (VRef l) = Ret fields ->
  exists st',
    SigningUploader.upload_then E u file (VRef l) st = (Ret (length (promises st)), st')
    /\ isUploading st' = true
    /\ heap_of st' = <[l := policy]> (heap_of st)
    /\ xhrs st'
       = xhrs st ++
         [Xhr (method u) target hs [Function CallDidProgress]
              (Some (UploadHandlers (length (promises st))))
              [BodyForm fields] 0]
    /\ get_prop policy "bucket" = get_prop json "bucket"
    /\ hasOwnProperty policy "bucket" = hasOwnProperty json "bucket".
Proof.
  intros Hhs Hl target policy Hconv Hfields.
  assert (Hdel : forall k, String.eqb k "bucket" = false ->
            hasOwnProperty (delete_prop k json) "bucket" = hasOwnProperty json "bucket").
  { intros k Hk. unfold hasOwnProperty, has_key, delete_prop. cbn.
    by rewrite !assoc_del_ne. }
  assert (Htarget : destination E (heap_of st) json = Ret target).
  { unfold destination. subst target.
    destruct (truthy (get_prop json "endpoint")); [done|].
    destruct (Hconv eq_refl) as [Hregion Hbucket].
    destruct (truthy (get_prop json "region")).
    - by rewrite (Hregion eq_refl), Hbucket.
    - by rewrite Hbucket. }
  rewrite (upload_then_run E u file l json st Hl), Htarget. cbv zeta.
  change (stripped json) with policy. cbn [heap_of]. rewrite Hfields.
  rewrite (ajax_configured _ _ _ _ _ _ Hhs). simpl_state.
  eexists. split; [reflexivity|]. simpl_state.
  split; [done|]. split; [done|]. split; [done|].
  subst policy.
  destruct (truthy (get_prop json "endpoint"));
    [split; [by apply get_delete_prop_ne | by apply Hdel]|].
  destruct (truthy (get_prop json "region"));
    [split; [by apply get_delete_prop_ne | by apply Hdel]|done].
Qed.

Lemma upload_resolves_policy_witness :
  exists st',
    SigningUploader.upload_then sample_engine configured (OneFile 0) (VRef 1)
      (State [photo; plain [("region", VStr "eu-west-1"); ("bucket", VStr "b")]]
             false true [] [] [] [])
    = (Ret 0, st')
    /\ heap_of st' = [photo; plain [("bucket", VStr "b")]]
    /\ xhrs st'
       = [Xhr "POST" (VStr "https://s3-eu-west-1.amazonaws.com/b") [("X-Token", "t")]
              [Function CallDidProgress] (Some (UploadHandlers 0))
              [BodyForm [("bucket", VStr "b"); ("file", VRef 0)]] 0].
Proof.
  destruct (upload_resolves_policy sample_engine configured [("X-Token", "t")]
              (OneFile 0) 1 (plain [("region", VStr "eu-west-1"); ("bucket", VStr "b")])
              (State [photo; plain [("region", VStr "eu-west-1"); ("bucket", VStr "b")]]
                     false true [] [] [] [])
              "eu-west-1" "b" [("bucket", VStr "b"); ("file", VRef 0)]
              eq_refl eq_refl (fun _ => conj (fun _ => eq_refl) eq_refl) eq_refl)
    as (st' & Hrun & _ & Hheap & Hxhrs & _).
  exists st'. split; [exact Hrun|]. split; [exact Hheap|exact Hxhrs].
Defined.

(** C1 as stated fails. A response that has an [endpoint] field holding
    the empty string is not sent to that endpoint and keeps the field; the
    [region] rule applies instead. A response whose [region] is an object
    with a [toString] property gets no destination at all: the conversion
    throws once [isUploading] is set, and no request is made. And a
    response that has a property named [hasOwnProperty] never becomes form
    data: [createFormData] throws after [region] has been deleted. *)
Lemma upload_ignores_empty_endpoint :
  SigningUploader.upload_then sample_engine configured (OneFile 0) (VRef 1)
    (State [photo; plain [("endpoint", VStr EmptyString); ("region", VStr "eu-west-1");
                          ("bucket", VStr "b")]]
           false true [] [] [] [])
  = (Ret 0,
     State [photo; plain [("endpoint", VStr EmptyString); ("bucket", VStr "b")]]
           true true [Listener "isAborting" true 0] []
           [Xhr "POST" (VStr "https://s3-eu-west-1.amazonaws.com/b") [("X-Token", "t")]
                [Function CallDidProgress] (Some (UploadHandlers 0))
                [BodyForm [("endpoint", VStr EmptyString); ("bucket", VStr "b"); ("file", VRef 0)]]
                0]
           [Promise Pending []])
  /\
  SigningUploader.upload_then sample_engine configured (OneFile 0) (VRef 2)
    (State [photo; plain [("toString", VStr "eu-west-1")];
            plain [("region", VRef 1); ("bucket", VStr "b")]]
           false true [] [] [] [])
  = (Throw (TypeError "Cannot convert object to primitive value"),
     State [photo; plain [("toString", VStr "eu-west-1")];
            plain [("region", VRef 1); ("bucket", VStr "b")]]
           true true [] [] [] [])
  /\
  SigningUploader.upload_then sample_engine configured (OneFile 0) (VRef 1)
    (State [photo; plain [("region", VStr "eu-west-1"); ("bucket", VStr "b");
                          ("hasOwnProperty", VStr "x")]]
           false true [] [] [] [])
  = (Throw (TypeError "extra.hasOwnProperty is not a function"),
     State [photo; plain [("bucket", VStr "b"); ("hasOwnProperty", VStr "x")]]
           true true [] [] [] []).
Proof. repeat split. Qed.

(** *** The multipart payload *)

(** C2 (as amended). For an [extra] mapping that has no property named
    [hasOwnProperty] and any files argument, [createFormData] appends one
    field per own enumerable key of [extra], carrying the value of that
    key, and then the files: a sequence of N handles (an Array or a
    FileList) gives N entries, all under the parameter name followed by
    [[]], in the order of the sequence; a single handle gives one entry
    under the parameter name itself. Every name, of a key and of the file
    parameter, is NAMESPACE[name] when a namespace is configured, and the
    name itself otherwise. *)
Theorem createFormData_entries (u : config) (h : heap) (files : files_arg)
    (l : loc) (o : object) :
  h !! l = Some o ->
  has_prop o "hasOwnProperty" = false ->
  let named (name : string) : string :=
    match paramNamespace u with
    | Some ns => if String.eqb ns EmptyString then name else ns +:+ "[" +:+ name +:+ "]"
    | None => name
    end in
  exists entries,
    Uploader.createFormData u h files (VRef l)
    = Ret (map (fun k => (named k, get_prop o k)) (map fst (own o)) ++ entries)
    /\ match files with
       | FileList fs | FileArray fs =>
           map fst entries = replicate (length fs) (named (paramName u) +:+ "[]")
           /\ map snd entries = fs
       | OneFile f =>
           entries = [(named (paramName u), VRef f)]
       end.
Proof.
  intros Hl Hcall named.
  assert (Hseq : forall (key : string) (fs : list value),
    map fst (map (fun f => (key, f)) fs) = replicate (length fs) key
    /\ map snd (map (fun f => (key, f)) fs) = fs).
  { intros key fs. induction fs as [|f fs [IH1 IH2]]; cbn; [done|].
    by rewrite IH1, IH2. }
  unfold Uploader.createFormData. rewrite (extra_fields_own u h l o Hl Hcall).
  cbn [and_then].
  destruct files as [f|fs|fs]; eexists; (split; [reflexivity|]);
    first [reflexivity | apply Hseq].
Qed.

Lemma createFormData_entries_witness :
  exists entries,
    Uploader.createFormData
      (Config (VStr "/upload") "POST" (Some "post") "file" (Some [])
              (VStr "/sign") "GET" (Some []))
      [photo; photo; plain [("caption", VStr "hi")]]
      (FileArray [VRef 0; VRef 1]) (VRef 2)
    = Ret ([("post[caption]", VStr "hi")] ++ entries)
    /\ map fst entries = ["post[file][]"; "post[file][]"]
    /\ map snd entries = [VRef 0; VRef 1].
Proof.
  exact (createFormData_entries
           (Config (VStr "/upload") "POST" (Some "post") "file" (Some [])
                   (VStr "/sign") "GET" (Some []))
           [photo; photo; plain [("caption", VStr "hi")]]
           (FileArray [VRef 0; VRef 1]) 2 (plain [("caption", VStr "hi")])
           eq_refl eq_refl).
Defined.

(** C2 as stated fails: an [extra] mapping with a key named
    [hasOwnProperty] gives no fields, the guard of the loop throws at the
    first key. *)
Lemma createFormData_shadowed_guard :
  Uploader.createFormData configured
    [photo; plain [("caption", VStr "hi"); ("hasOwnProperty", VStr "x")]]
    (OneFile 0) (VRef 1)
  = Throw (TypeError "extra.hasOwnProperty is not a function").
Proof. reflexivity. Qed.

(** *** A failed signing call *)

(** C3. When the signing request of [SigningUploader.upload] fails, the
    deferred of the signing call and the deferred that [upload] returned
    are both rejected with the value the transport reported, no request
    other than the signing request exists ([Uploader.ajax] has not been
    called), and [isUploading], which [upload] had left as it was, is
    false. *)
Theorem signing_failure_short_circuits (E : engine) (u : config)
    (hs : list (string * string)) (file : files_arg) (extra : value) (st : state)
    (e : loc) (h0 : heap) (evt : value) :
  signingAjaxSettings_headers u = Some hs ->
  extra_object (heap_of st) extra = Some (e, h0) ->
  (match_get (signingMethod u) = false ->
   is_Some (JSON_stringify E (augmented file e h0) (VRef e))) ->
  let signed := length (promises st) in
  let returned := S (length (promises st)) in
  let request := length (xhrs st) in
  exists st1 st2,
    SigningUploader.upload E u file extra st = (Ret returned, st1)
    /\ isUploading st1 = isUploading st
    /\ length (xhrs st1) = S request
    /\ deliver E u request (Failed evt) st1 = (Ret tt, st2)
    /\ p_state <$> promises st2 !! signed = Some (Rejected (RValue evt))
    /\ p_state <$> promises st2 !! returned = Some (Rejected (RValue evt))
    /\ length (xhrs st2) = S request
    /\ isUploading st2 = false
    /\ isSigning st2 = false.
Proof.
  intros Hhs Hextra Hjson signed returned request.
  destruct (sign_data_exists E u _ e Hjson) as (data & Hdata & _).
  destruct st as [h up sg ls em xs ps]. subst signed returned request. simpl_state.
  unfold SigningUploader.upload. unfold bind at 1.
  rewrite (sign_configured E u hs file extra (State h up sg ls em xs ps) e h0 data
             Hhs Hextra Hdata).
  unfold bind, promise_new, promise_then, modify, ret. simpl_state.
  rewrite length_app, Nat.add_comm. cbn [length Nat.add].
  rewrite <- app_assoc. cbn [app]. rewrite alter_snoc2_fst. cbn [p_state p_reactions app].
  match goal with
  | |- exists st1 st2, (_, ?ST) = _ /\ _ =>
      cut (exists st2,
             deliver E u (length xs) (Failed evt) ST = (Ret tt, st2)
             /\ p_state <$> promises st2 !! length ps = Some (Rejected (RValue evt))
             /\ p_state <$> promises st2 !! S (length ps) = Some (Rejected (RValue evt))
             /\ length (xhrs st2) = S (length xs)
             /\ isUploading st2 = false
             /\ isSigning st2 = false);
      [ intros (st2 & Hdeliver & Hrest); exists ST, st2;
        split; [reflexivity|]; split; [reflexivity|];
        split; [by simpl_state; rewrite length_app, Nat.add_comm|];
        split; [exact Hdeliver|exact Hrest]
      | ]
  end.
  unfold deliver. unfold bind at 1, gets at 1. simpl_state.
  rewrite list_lookup_middle by done. cbn [x_handlers].
  unfold SigningUploader.didErrorOnSign.
  unfold bind at 1. unfold bind at 1. unfold modify at 1.
  unfold bind at 1. rewrite trigger_eq.
  unfold bind at 1.
  match goal with
  | |- context [Uploader.didError ?a ?b ?c ?s] =>
      destruct (didError_frame a b c s) as [h' ->]
  end.
  unfold ret at 1. unfold reject, pending_reactions.
  unfold bind at 1. unfold gets at 1. unfold triggered. simpl_state.
  rewrite lookup_snoc2_fst.
  unfold bind, settle, modify. simpl_state. cbn [for_each react_rejected].
  unfold bind, settle, modify, ret. simpl_state.
  rewrite alter_snoc2_fst, alter_snoc2_snd. cbn [settle_in p_state p_reactions].
  eexists. split; [reflexivity|]. simpl_state.
  rewrite lookup_snoc2_fst, lookup_snoc2_snd.
  repeat split.
  rewrite !abort_each_length, length_app, Nat.add_comm. done.
Qed.

Lemma signing_failure_short_circuits_witness :
  exists st1 st2,
    SigningUploader.upload sample_engine configured (OneFile 0) (VRef 1)
      (State [photo; plain []; plain []] false false [] [] [] []) = (Ret 1, st1)
    /\ isUploading st1 = false
    /\ length (xhrs st1) = 1
    /\ deliver sample_engine configured 0 (Failed (VRef 2)) st1 = (Ret tt, st2)
    /\ p_state <$> promises st2 !! 0 = Some (Rejected (RValue (VRef 2)))
    /\ p_state <$> promises st2 !! 1 = Some (Rejected (RValue (VRef 2)))
    /\ length (xhrs st2) = 1
    /\ isUploading st2 = false
    /\ isSigning st2 = false.
Proof.
  apply (signing_failure_short_circuits sample_engine configured
           [("Authorization", "k")] (OneFile 0) (VRef 1)
           (State [photo; plain []; plain []] false false [] [] [] [])
           1 [photo; plain []; plain []] (VRef 2));
    [reflexivity | reflexivity | discriminate].
Defined.

(** *** Transport failures *)

(** C4 (as amended). A request that fails at the network level, the
    upload or the signing request, never escapes as an exception and never
    resolves its deferred: the deferred is rejected with what the transport
    reported, [isUploading] is false, and the application sees [didError],
    preceded by [didErrorOnSign] when the request was the signing request,
    whose [isSigning] flag is then false. *)
Theorem transport_error_rejects (E : engine) (u : config) (st : state) (x : nat)
    (r : xhr) (p : nat) (rs : list reaction) (evt : value) :
  xhrs st !! x = Some r ->
  promises st !! p = Some (Promise Pending rs) ->
  x_handlers r = Some (UploadHandlers p) \/ x_handlers r = Some (SignHandlers p) ->
  exists st',
    deliver E u x (Failed evt) st = (Ret tt, st')
    /\ p_state <$> promises st' !! p = Some (Rejected (RValue evt))
    /\ isUploading st' = false
    /\ emitted st'
       = emitted st
         ++ match x_handlers r with
            | Some (SignHandlers _) => [("didErrorOnSign", [])]
            | _ => []
            end
         ++ [("didError", [evt; VUndefined; VUndefined])]
    /\ (x_handlers r = Some (SignHandlers p) -> isSigning st' = false).
Proof.
  intros Hx Hp Hhandlers. unfold deliver. unfold bind at 1, gets at 1. rewrite Hx.
  destruct Hhandlers as [Hh|Hh]; rewrite Hh.
  - unfold bind at 1.
    destruct (didError_frame evt VUndefined VUndefined st) as [h' ->].
    match goal with
    | |- context [reject p ?why ?s] =>
        destruct (reject_pending why p rs s) as (ps' & -> & Hrej);
          [by destruct st|]
    end.
    eexists. split; [reflexivity|]. destruct st. unfold triggered. simpl_state.
    repeat split; [done|discriminate].
  - unfold bind at 1. unfold SigningUploader.didErrorOnSign.
    unfold bind at 1. unfold modify at 1.
    unfold bind at 1. rewrite trigger_eq.
    unfold bind at 1.
    match goal with
    | |- context [Uploader.didError ?a ?b ?c ?s] =>
        destruct (didError_frame a b c s) as [h' ->]
    end.
    unfold ret at 1.
    match goal with
    | |- context [reject p ?why ?s] =>
        destruct (reject_pending why p rs s) as (ps' & -> & Hrej);
          [by destruct st|]
    end.
    eexists. split; [reflexivity|]. destruct st. unfold triggered. simpl_state.
    repeat split; [done|by rewrite <- app_assoc].
Qed.

Lemma transport_error_rejects_witness :
  exists st',
    deliver sample_engine configured 0 (Failed (VRef 0))
      (State [plain []] true false [Listener "isAborting" true 0] []
             [Xhr "POST" (VStr "/upload") [] [Function CallDidProgress]
                  (Some (UploadHandlers 0)) [BodyForm []] 0]
             [Promise Pending []])
    = (Ret tt, st')
    /\ p_state <$> promises st' !! 0 = Some (Rejected (RValue (VRef 0)))
    /\ isUploading st' = false
    /\ emitted st' = [("didError", [VRef 0; VUndefined; VUndefined])].
Proof.
  destruct (transport_error_rejects sample_engine configured
              (State [plain []] true false [Listener "isAborting" true 0] []
                     [Xhr "POST" (VStr "/upload") [] [Function CallDidProgress]
                          (Some (UploadHandlers 0)) [BodyForm []] 0]
                     [Promise Pending []])
              0 _ 0 [] (VRef 0) eq_refl eq_refl (or_introl eq_refl))
    as (st' & Hrun & Hrejected & Hflag & Hevents & _).
  exists st'. repeat split; assumption.
Defined.

(** C4 as stated fails: a response with a failure status arrives as a
    [load] event like any other response. The upload deferred is fulfilled
    with it and the application sees [didUpload]; for the signing request
    the deferred is fulfilled as well and the upload is started with the
    response as its policy. *)
Lemma failure_status_resolves :
  (Uploader.upload configured (OneFile 0) VUndefined ;;
   deliver sample_engine configured 0 (Completed 500 (VStr "Internal Server Error")))
    (State [photo] false false [] [] [] [])
  = (Ret tt,
     State [photo] false false [Listener "isAborting" true 0]
           [("didUpload", [VStr "Internal Server Error"])]
           [Xhr "POST" (VStr "/upload") [("X-Token", "t")] [Function CallDidProgress]
                (Some (UploadHandlers 0)) [BodyForm [("file", VRef 0)]] 0]
           [Promise (Fulfilled (VStr "Internal Server Error")) []])
  /\
  (let run :=
     (SigningUploader.upload sample_engine configured (OneFile 0) VUndefined ;;
      deliver sample_engine configured 0 (Completed 403 (VRef 1)))
       (State [photo; plain [("message", VStr "Forbidden")]] false false [] [] [] []) in
   fst run = Ret tt
   /\ p_state <$> promises (snd run) !! 0 = Some (Fulfilled (VRef 1))
   /\ emitted (snd run) = [("didSign", [VRef 1])]
   /\ isUploading (snd run) = true
   /\ x_url <$> xhrs (snd run) !! 1 = Some (VStr "https://undefined.s3.amazonaws.com")).
Proof. split; [reflexivity|]. cbv zeta. repeat split. Qed.

(** *** The error descriptor *)

(** C5 (as amended). For every call [didError(errObj, textStatus,
    errorThrown)]: the call returns [errObj] and [isUploading] is false
    afterwards; when [errObj] is an object its [then] property is null
    afterwards; and when that object had no truthy [errorThrown] before,
    its [errorThrown] is a fresh [Error] carrying the reason when
    [errorThrown] is a string, and is [errorThrown] itself otherwise,
    [null] and [undefined] included. *)
Theorem didError_shapes_error (ts et : value) (st : state) :
  (forall errObj, exists st',
     Uploader.didError errObj ts et st = (Ret errObj, st')
     /\ isUploading st' = false)
  /\
  (forall l o, heap_of st !! l = Some o ->
     exists st' o',
       Uploader.didError (VRef l) ts et st = (Ret (VRef l), st')
       /\ heap_of st' !! l = Some o'
       /\ get_prop o' "then" = VNull
       /\ (truthy (get_prop o "errorThrown") = false ->
           match et with
           | VStr text =>
               exists e err,
                 get_prop o' "errorThrown" = VRef e
                 /\ heap_of st !! e = None
                 /\ heap_of st' !! e = Some err
                 /\ o_class err = CError
                 /\ get_prop err "message" = VStr text
           | _ => get_prop o' "errorThrown" = et
           end)).
Proof.
  destruct st as [h up sg ls em xs ps]. split.
  - intros errObj. unfold Uploader.didError.
    destruct errObj as [| |b|x|s|l];
      try (unfold bind, modify, ret; cbn; rewrite trigger_eq; by eexists).
    unfold bind at 1. unfold modify at 1.
    unfold bind at 1.
    unfold bind at 1. unfold heap_set at 1, modify. unfold bind at 1, heap_get, gets.
    cbn [with_isUploading with_heap heap_of isUploading isSigning listeners emitted xhrs promises].
    destruct (truthy _).
    + unfold ret at 1. unfold bind. rewrite trigger_eq. by eexists.
    + destruct et; unfold bind, new_Error, alloc, heap_set, modify; cbn;
        rewrite trigger_eq; by eexists.
  - intros l o Hl. cbn in Hl.
    assert (Hlt : l < length h) by (by eapply lookup_lt_Some).
    unfold Uploader.didError.
    unfold bind at 1. unfold modify at 1.
    unfold bind at 1.
    unfold bind at 1. unfold heap_set at 1, modify. unfold bind at 1, heap_get, gets.
    cbn [with_isUploading with_heap heap_of isUploading isSigning listeners emitted xhrs promises].
    rewrite (heap_set_lookup _ _ _ _ _ Hl). cbn [from_option].
    rewrite get_set_prop_ne by done.
    destruct (truthy (get_prop o "errorThrown")) eqn:Hprior.
    + unfold ret at 1. unfold bind. rewrite trigger_eq. cbn.
      eexists _, _. split; [reflexivity|]. cbn.
      rewrite (heap_set_lookup _ _ _ _ _ Hl).
      split; [reflexivity|]. split; [apply get_set_prop_eq|]. discriminate.
    + destruct et as [| |b|x|text|l'].
      5: {
        unfold bind, new_Error, alloc, heap_set, modify. cbn. rewrite trigger_eq. cbn.
        eexists _, _. split; [reflexivity|]. cbn.
        rewrite length_alter.
        rewrite list_lookup_alter_eq, lookup_app_l by (by rewrite length_alter).
        rewrite (heap_set_lookup _ _ _ _ _ Hl). cbn.
        split; [reflexivity|].
        split; [rewrite get_set_prop_ne by done; apply get_set_prop_eq|].
        intros _. eexists _, _. split; [apply get_set_prop_eq|].
        split; [by apply lookup_ge_None|].
        rewrite list_lookup_alter_ne by lia.
        rewrite lookup_app_r by (by rewrite length_alter).
        rewrite length_alter, Nat.sub_diag. cbn. done. }
      all: unfold bind, heap_set, modify; cbn; rewrite trigger_eq; cbn;
        eexists _, _; (split; [reflexivity|]); cbn;
        rewrite list_lookup_alter_eq, (heap_set_lookup _ _ _ _ _ Hl); cbn;
        (split; [reflexivity|]);
        (split; [rewrite get_set_prop_ne by done; apply get_set_prop_eq
                |intros _; apply get_set_prop_eq]).
Qed.

Lemma didError_shapes_error_witness :
  exists st' o' e err,
    Uploader.didError (VRef 0) (VStr "error") (VStr "timeout")
      (State [plain []] true false [] [] [] []) = (Ret (VRef 0), st')
    /\ heap_of st' !! 0 = Some o'
    /\ get_prop o' "then" = VNull
    /\ get_prop o' "errorThrown" = VRef e
    /\ heap_of st' !! e = Some err
    /\ o_class err = CError
    /\ get_prop err "message" = VStr "timeout".
Proof.
  destruct (proj2 (didError_shapes_error (VStr "error") (VStr "timeout")
                     (State [plain []] true false [] [] [] []))
              0 (plain []) eq_refl)
    as (st' & o' & Hrun & Hobj & Hthen & Hthrown).
  destruct (Hthrown eq_refl) as (e & err & He & _ & Herr & Hclass & Hmsg).
  exists st', o', e, err. repeat split; assumption.
Defined.

(** C5 as stated fails: the transport calls [onerror] with the event
    alone, so [didError] receives an undefined [errorThrown] and attaches
    exactly that. *)
Lemma didError_attaches_undefined :
  Uploader.didError (VRef 0) VUndefined VUndefined
    (State [plain []] true false [] [] [] [])
  = (Ret (VRef 0),
     State [plain [("then", VNull); ("errorThrown", VUndefined)]] false false []
           [("didError", [VRef 0; VUndefined; VUndefined])] [] []).
Proof. reflexivity. Qed.

(** *** Pass-through hooks *)

(** C6. [didUpload(v)] returns [v] and leaves [isUploading] false.
    [didSign(v)] returns [v] too, but it does not touch [isSigning]: the
    flag that [sign] has set stays set when the signing call succeeds, as
    in the run that ends this statement (a signing request answered with
    status 200). *)
Theorem didSign_leaves_isSigning_set (v : value) (st : state) :
  (exists st', Uploader.didUpload v st = (Ret v, st') /\ isUploading st' = false)
  /\ (exists st', SigningUploader.didSign v st = (Ret v, st')
                  /\ isSigning st' = isSigning st)
  /\ isSigning
       (snd ((SigningUploader.sign sample_engine configured (FileArray []) VUndefined ;;
              deliver sample_engine configured 0 (Completed 200 (VStr "signed")))
               initial)) = true.
Proof.
  split; [|split].
  - unfold Uploader.didUpload, bind, modify. cbn. rewrite trigger_eq. by eexists.
  - unfold SigningUploader.didSign, bind. rewrite trigger_eq. by eexists.
  - reflexivity.
Qed.

(** *** The signing request *)

(** C7 (as amended). Every signing request carries the header
    Content-Type: application/json, followed by the configured signing
    headers, whatever the signing method is. If the method does not
    contain "get", in either case, the request goes to the signing URL
    with the JSON serialization of the augmented [extra] mapping as its
    body. *)
Theorem sign_request (E : engine) (u : config) (hs : list (string * string))
    (file : files_arg) (extra : value) (st : state) (e : loc) (h0 : heap) :
  signingAjaxSettings_headers u = Some hs ->
  extra_object (heap_of st) extra = Some (e, h0) ->
  (match_get (signingMethod u) = false ->
   is_Some (JSON_stringify E (augmented file e h0) (VRef e))) ->
  exists st' request,
    SigningUploader.sign E u file extra st = (Ret (length (promises st)), st')
    /\ heap_of st' = augmented file e h0
    /\ xhrs st' = xhrs st ++ [request]
    /\ x_method request = signingMethod u
    /\ x_headers request = ("Content-Type", "application/json") :: hs
    /\ x_handlers request = Some (SignHandlers (length (promises st)))
    /\ (match_get (signingMethod u) = false ->
        exists text,
          JSON_stringify E (heap_of st') (VRef e) = Some text
          /\ x_url request = signingUrl u
          /\ x_sent request = [BodyText text]).
Proof.
  intros Hhs Hextra Hjson.
  destruct (sign_data_exists E u _ e Hjson) as (data & Hdata & Hshape).
  rewrite (sign_configured E u hs file extra st e h0 data Hhs Hextra Hdata).
  eexists _, _. split; [reflexivity|]. simpl_state.
  do 5 (split; [reflexivity|]).
  intros Hmeth. rewrite Hmeth in Hshape. destruct Hshape as (text & Htext & ->).
  by exists text.
Qed.

Lemma sign_request_witness :
  exists st' request,
    SigningUploader.sign sample_engine
      (Config (VStr "/upload") "POST" None "file" (Some [])
              (VStr "/sign") "POST" (Some [("Authorization", "k")]))
      (OneFile 0) VUndefined
      (State [photo] false false [] [] [] [])
    = (Ret 0, st')
    /\ xhrs st' = [request]
    /\ x_method request = "POST"
    /\ x_headers request
       = [("Content-Type", "application/json"); ("Authorization", "k")]
    /\ x_url request = VStr "/sign"
    /\ x_sent request = [BodyText "{}"].
Proof.
  destruct (sign_request sample_engine
              (Config (VStr "/upload") "POST" None "file" (Some [])
                      (VStr "/sign") "POST" (Some [("Authorization", "k")]))
              [("Authorization", "k")] (OneFile 0) VUndefined
              (State [photo] false false [] [] [] []) 1 [photo; plain []]
              eq_refl eq_refl (fun _ => ltac:(by eexists)))
    as (st' & request & Hrun & _ & Hxhrs & Hmeth & Hheaders & _ & Hbody).
  destruct (Hbody eq_refl) as (text & Htext & Hurl & Hsent).
  cbn in Htext. injection Htext as <-.
  exists st', request. repeat split; assumption.
Defined.

(** C7 as stated fails: with the default signing method GET the request
    carries the Content-Type header all the same. Nor is [extra] sent as
    a query with that method: the request is opened on the signing URL as
    it is, and the object itself is what [send] is given. *)
Lemma sign_get_carries_content_type :
  SigningUploader.sign sample_engine configured (OneFile 0) (VRef 1)
    (State [photo; plain [("acl", VStr "private")]] false false [] [] [] [])
  = (Ret 0,
     State [photo;
            plain [("acl", VStr "private"); ("name", VStr "a.png");
                   ("type", VStr "image/png"); ("size", VNum 3)]]
           false true [] []
           [Xhr "GET" (VStr "/sign")
                [("Content-Type", "application/json"); ("Authorization", "k")] []
                (Some (SignHandlers 0)) [BodyObject 1] 0]
           [Promise Pending []]).
Proof. reflexivity. Qed.

(** *** Progress *)

(** C8 (as amended). For an event whose [loaded] and [total] are
    numbers, or convert to numbers, [didProgress(event)] sets
    [event.percent] to [loaded / total * 100] in floating point, changing
    the event object in place, and then emits [progress] with that
    object. The quotient is not guarded: with [total] 0 the percentage is
    not a number when [loaded] is 0 too, or is not a number itself, and is
    infinite otherwise. *)
Theorem didProgress_sets_percent (E : engine) (l : loc) (event : object) (st : state)
    (loaded total : float) :
  heap_of st !! l = Some event ->
  ToNumber E (heap_of st) (get_prop event "loaded") = Ret loaded ->
  ToNumber E (heap_of st) (get_prop event "total") = Ret total ->
  let percent := (loaded / total * 100)%float in
  exists st',
    Uploader.didProgress E (VRef l) st = (Ret tt, st')
    /\ heap_of st' = <[l := set_prop "percent" (VNum percent) event]> (heap_of st)
    /\ emitted st' = emitted st ++ [("progress", [VRef l])]
    /\ (forall sign_of_total, Prim2SF total = S754_zero sign_of_total ->
        Prim2SF percent
        = match Prim2SF loaded with
          | S754_zero _ | S754_nan => S754_nan
          | S754_infinity s | S754_finite s _ _ => S754_infinity (xorb s sign_of_total)
          end).
Proof.
  intros Hl Hloaded Htotal percent. destruct st as [h up sg ls em xs ps]. simpl_state.
  unfold Uploader.didProgress, bind, heap_get, heap_set, gets, on_heap, modify. simpl_state.
  rewrite Hl. cbn [from_option]. rewrite Hloaded, Htotal.
  rewrite trigger_eq. unfold triggered. simpl_state.
  eexists. split; [reflexivity|]. simpl_state.
  rewrite (alter_insert _ _ _ _ Hl). do 2 (split; [reflexivity|]).
  intros s Hzero. subst percent. rewrite mul_spec, div_spec, Hzero.
  destruct (Prim2SF loaded) as [s'|s'| |s' m e]; cbn; try reflexivity;
    destruct (xorb s' s); reflexivity.
Qed.

Lemma didProgress_sets_percent_witness :
  exists st',
    Uploader.didProgress sample_engine (VRef 0)
      (State [plain [("loaded", VNum 50); ("total", VNum 200)]] true false [] [] [] [])
    = (Ret tt, st')
    /\ heap_of st'
       = [plain [("loaded", VNum 50); ("total", VNum 200); ("percent", VNum 25)]]
    /\ emitted st' = [("progress", [VRef 0])].
Proof.
  destruct (didProgress_sets_percent sample_engine 0
              (plain [("loaded", VNum 50); ("total", VNum 200)])
              (State [plain [("loaded", VNum 50); ("total", VNum 200)]]
                     true false [] [] [] [])
              50 200 eq_refl eq_refl eq_refl)
    as (st' & Hrun & Hheap & Hevents & _).
  exists st'. split; [exact Hrun|]. split; [|exact Hevents].
  rewrite Hheap. reflexivity.
Defined.

(** C8 as stated fails twice over. The listener that [ajaxPromise]
    installs is a [function], so its [this] is the upload object of the
    request: a progress event makes it throw, [didProgress] is not reached,
    the event gets no [percent] and no [progress] is emitted. And
    [didProgress] itself, for 5 bytes loaded of a total reported as 0,
    stores infinity, which is a number. *)
Lemma progress_wiring_and_zero_total :
  (Uploader.upload configured (OneFile 0) VUndefined ;;
   deliver sample_engine configured 0 (Progress (VRef 1)))
    (State [photo; plain [("loaded", VNum 5); ("total", VNum 10)]]
           false false [] [] [] [])
  = (Throw (TypeError "this.didProgress is not a function"),
     State [photo; plain [("loaded", VNum 5); ("total", VNum 10)]]
           true false [Listener "isAborting" true 0] []
           [Xhr "POST" (VStr "/upload") [("X-Token", "t")] [Function CallDidProgress]
                (Some (UploadHandlers 0)) [BodyForm [("file", VRef 0)]] 0]
           [Promise Pending []])
  /\
  Uploader.didProgress sample_engine (VRef 0)
    (State [plain [("loaded", VNum 5); ("total", VNum 0)]] true false [] [] [] [])
  = (Ret tt,
     State [plain [("loaded", VNum 5); ("total", VNum 0); ("percent", VNum infinity)]]
           true false [] [("progress", [VRef 0])] [] [])
  /\ PrimFloat.is_nan infinity = false.
Proof. repeat split. Qed.

(** *** Abort *)

(** C9. After one call of [ajaxPromise] for a request that no earlier
    listener aborts, any number of [abort()] calls, one or more, made
    before the transport reports anything invokes the abort primitive of
    the request exactly once, and [isUploading] is false afterwards: the
    listener registered with [one] is gone after the first call. *)
Theorem abort_is_one_shot (x : nat) (r : xhr) (data : body) (st : state) (n : nat) :
  xhrs st !! x = Some r ->
  Forall (fun l => l_abort l <> x) (listeners st) ->
  exists p st1 st2,
    Uploader.ajaxPromise x data st = (Ret p, st1)
    /\ x_aborts <$> xhrs st1 !! x = Some (x_aborts r)
    /\ abort_times (S n) st1 = (Ret tt, st2)
    /\ x_aborts <$> xhrs st2 !! x = Some (S (x_aborts r))
    /\ Forall (fun l => l_abort l <> x) (listeners st2)
    /\ isUploading st2 = false.
Proof.
  intros Hx Hls. destruct st as [h up sg ls em xs ps]. simpl_state.
  unfold Uploader.ajaxPromise, bind, promise_new, xhr_upload_addEventListener, one,
    xhr_set_handlers, xhr_send, xhr_update, modify, ret. simpl_state.
  set (xs1 := alter _ x (alter _ x (alter _ x xs))).
  assert (Hx1 : x_aborts <$> xs1 !! x = Some (x_aborts r)).
  { subst xs1. by rewrite !list_lookup_alter_eq, Hx. }
  set (st1 := State h up sg (ls ++ [Listener "isAborting" true x]) em xs1
                    (ps ++ [Promise Pending []])).
  set (after := triggered "isAborting" [] (with_isUploading false st1)).
  assert (Hfirst : x_aborts <$> xhrs after !! x = Some (S (x_aborts r))).
  { subst after st1. unfold triggered. simpl_state.
    rewrite List.filter_app, abort_each_app. cbn.
    rewrite list_lookup_alter_eq, abort_each_other by (by apply Forall_filter_keep).
    destruct (xs1 !! x) as [r1|]; [|done]. cbn in Hx1 |- *. by injection Hx1 as ->. }
  assert (Hleft : Forall (fun l => l_abort l <> x) (listeners after)).
  { subst after st1. unfold triggered. simpl_state.
    rewrite List.filter_app. cbn. rewrite app_nil_r. by apply Forall_filter_keep. }
  destruct (abort_times_other x (S (x_aborts r)) n after Hfirst Hleft)
    as (st2 & Hrun & Hk & Hls2 & Hflag & _).
  exists (length ps), st1, st2. split; [reflexivity|]. split; [exact Hx1|].
  split; [cbn [abort_times]; unfold bind at 1; by rewrite abort_eq|].
  split; [exact Hk|]. split; [exact Hls2|by apply Hflag].
Qed.

Lemma abort_is_one_shot_witness :
  exists p st1 st2,
    Uploader.ajaxPromise 0 (BodyForm [])
      (State [] true false [] [] [Xhr "POST" (VStr "/upload") [] [] None [] 0] [])
    = (Ret p, st1)
    /\ x_aborts <$> xhrs st1 !! 0 = Some 0
    /\ abort_times 2 st1 = (Ret tt, st2)
    /\ x_aborts <$> xhrs st2 !! 0 = Some 1
    /\ Forall (fun l => l_abort l <> 0) (listeners st2)
    /\ isUploading st2 = false.
Proof.
  apply (abort_is_one_shot 0 (Xhr "POST" (VStr "/upload") [] [] None [] 0) (BodyForm [])
           (State [] true false [] [] [Xhr "POST" (VStr "/upload") [] [] None [] 0] [])
           1);
    [reflexivity | constructor].
Defined.

(** *** The header mappings *)

(** C10. [Uploader.ajax] enumerates the keys of [ajaxSettings.headers]
    and [SigningUploader.sign] those of [signingAjaxSettings.headers]
    without a guard: when the respective mapping is undefined the call
    throws a type error synchronously. No deferred has been created by
    then and no request has been sent. *)
Theorem headers_mapping_required (E : engine) (u : config) :
  (ajaxSettings_headers u = None ->
   forall target data meth st, exists msg st',
     Uploader.ajax u target data meth st = (Throw (TypeError msg), st')
     /\ promises st' = promises st
     /\ nothing_sent st st')
  /\
  (signingAjaxSettings_headers u = None ->
   forall file extra st, exists msg st',
     SigningUploader.sign E u file extra st = (Throw (TypeError msg), st')
     /\ promises st' = promises st
     /\ nothing_sent st st').
Proof.
  split.
  - intros Hhs target data meth st. eexists _, _.
    rewrite (ajax_unconfigured _ _ _ _ _ Hhs). split; [reflexivity|].
    split; [by destruct st|].
    eapply nothing_sent_push; [by destruct st|done].
  - intros Hhs file extra st.
    destruct (sign_unconfigured E u file extra st Hhs) as (msg & st' & H1 & H2 & _ & H3).
    by exists msg, st'.
Qed.

Lemma headers_mapping_required_witness :
  (exists msg st',
     Uploader.ajax defaults (VStr "/upload") (BodyForm []) "POST" initial
     = (Throw (TypeError msg), st')
     /\ promises st' = promises initial /\ nothing_sent initial st')
  /\
  (exists msg st',
     SigningUploader.sign sample_engine defaults (FileArray []) VUndefined initial
     = (Throw (TypeError msg), st')
     /\ promises st' = promises initial /\ nothing_sent initial st').
Proof.
  split.
  - apply (proj1 (headers_mapping_required sample_engine defaults)). reflexivity.
  - apply (proj2 (headers_mapping_required sample_engine defaults)). reflexivity.
Defined.

(** ** Further properties of the code *)

(** *** Field names *)

Lemma append_cancel_l (s a b : string) : s +:+ a = s +:+ b -> a = b.
Proof. induction s as [|c s IH]; cbn; [done|]. intros [= H]. by apply IH. Qed.

Lemma append_cancel_last (c : ascii) : forall a b : string,
  a +:+ String c EmptyString = b +:+ String c EmptyString -> a = b.
Proof.
  induction a as [|x a IH]; intros [|y b]; cbn; intros H; try done.
  - injection H as _ H. by destruct b.
  - injection H as _ H. by destruct a.
  - injection H as -> H. f_equal. by apply IH.
Qed.

(** X1. [toNamespacedParam] never maps two names to one field name,
    whatever the configured namespace. *)
Theorem toNamespacedParam_injective (u : config) (a b : string) :
  Uploader.toNamespacedParam u a = Uploader.toNamespacedParam u b -> a = b.
Proof.
  unfold Uploader.toNamespacedParam.
  destruct (paramNamespace u) as [ns|]; [|done].
  destruct (String.eqb ns EmptyString); [done|].
  intros H. apply append_cancel_l, append_cancel_l in H.
  by apply append_cancel_last in H.
Qed.

Lemma toNamespacedParam_injective_witness :
  Uploader.toNamespacedParam
    (Config VNull "POST" (Some "post") "file" None VNull "GET" None) "title"
  = "post[title]"
  /\ "title" = "title".
Proof.
  split; [reflexivity|].
  exact (toNamespacedParam_injective
           (Config VNull "POST" (Some "post") "file" None VNull "GET" None)
           "title" "title" eq_refl).
Defined.

(** *** The signing method *)

Lemma prefix_ci_get (s : string) :
  prefix_ci "get" s = true <->
  exists g e t rest,
    s = String g (String e (String t rest))
    /\ lower g = "g"%char /\ lower e = "e"%char /\ lower t = "t"%char.
Proof.
  split.
  - destruct s as [|g [|e [|t rest]]]; cbn; try done;
      rewrite ?andb_false_r; try done.
    rewrite andb_true_r. intros H.
    apply andb_prop in H as [Hg H]. apply andb_prop in H as [He Ht].
    apply Ascii.eqb_eq in Hg, He, Ht.
    exists g, e, t, rest. by rewrite <- Hg, <- He, <- Ht.
  - intros (g & e & t & rest & -> & Hg & He & Ht). cbn.
    rewrite Hg, He, Ht. reflexivity.
Qed.

Lemma search_ci_spec (p s : string) :
  search_ci p s = true <->
  exists before rest, s = before +:+ rest /\ prefix_ci p rest = true.
Proof.
  split.
  - induction s as [|c s IH]; cbn.
    + rewrite orb_false_r. intros H. by exists EmptyString, EmptyString.
    + intros H. apply orb_prop in H as [H|H].
      * by exists EmptyString, (String c s).
      * destruct (IH H) as (before & rest & -> & Hrest).
        by exists (String c before), rest.
  - intros (before & rest & -> & Hrest).
    induction before as [|c before IH].
    + change (EmptyString +:+ rest) with rest.
      destruct rest; cbn [search_ci]; by rewrite Hrest.
    + change (String c before +:+ rest) with (String c (before +:+ rest)).
      cbn [search_ci]. by rewrite IH, orb_true_r.
Qed.

(** X2. The test [method.match(/get/i)] of [sign] is not anchored: a
    signing method counts as GET exactly when the letters g, e, t occur in
    it in a row, in any mix of cases and anywhere in the name. *)
Theorem match_get_unanchored (meth : string) :
  match_get meth = true <->
  exists before g e t rest,
    meth = before +:+ String g (String e (String t rest))
    /\ lower g = "g"%char /\ lower e = "e"%char /\ lower t = "t"%char.
Proof.
  unfold match_get. rewrite search_ci_spec. split.
  - intros (before & rest & -> & H). apply prefix_ci_get in H
      as (g & e & t & rest' & -> & Hg & He & Ht).
    by exists before, g, e, t, rest'.
  - intros (before & g & e & t & rest & -> & Hg & He & Ht).
    eexists before, _. split; [reflexivity|].
    apply prefix_ci_get. by exists g, e, t, rest.
Qed.

(** *** Uploader.upload *)

Lemma quiet_filter_other (name : string) (ls : list listener) :
  Forall (fun l => l_event l = "isAborting" /\ l_once l = true) ls ->
  String.eqb "isAborting" name = false ->
  List.filter (fires name) ls = []
  /\ List.filter (fun l => negb (fires name l && l_once l)) ls = ls.
Proof.
  intros Hls Hname. induction Hls as [|l ls [Hl _] _ [IH1 IH2]]; [done|].
  cbn [List.filter].
  replace (fires name l) with false by (unfold fires; by rewrite Hl, Hname).
  cbn. by rewrite IH1, IH2.
Qed.

(** With a quiet registry an event other than [isAborting] is only seen
    by the application. *)
Lemma triggered_quiet (name : string) (args : list value) (st : state) :
  quiet st -> String.eqb "isAborting" name = false ->
  triggered name args st = with_emitted (fun es => es ++ [(name, args)]) st.
Proof.
  intros Hq Hname. destruct (quiet_filter_other name _ Hq Hname) as [H1 H2].
  unfold triggered. rewrite H1, H2. by destruct st.
Qed.

Lemma upload_configured (u : config) (hs : list (string * string))
    (files : files_arg) (extra : value) (st : state) (fields : FormData) :
  ajaxSettings_headers u = Some hs ->
  Uploader.createFormData u (heap_of st) files extra = Ret fields ->
  Uploader.upload u files extra st
  = (Ret (length (promises st)),
     State (heap_of st) true (isSigning st)
           (listeners st ++ [Listener "isAborting" true (length (xhrs st))])
           (emitted st)
           (xhrs st ++
              [Xhr (method u) (url u) hs [Function CallDidProgress]
                   (Some (UploadHandlers (length (promises st))))
                   [BodyForm fields] 0])
           (promises st ++ [Promise Pending []])).
Proof.
  intros Hhs Hfields. unfold Uploader.upload, bind, on_heap, modify. rewrite Hfields.
  rewrite (ajax_configured _ _ _ _ _ _ Hhs). by destruct st.
Qed.

(** X3. With a configured header mapping, and once [createFormData] has
    built the payload from the objects as they are at the call, [upload]
    opens exactly one new request with the configured method and URL,
    gives it the configured headers in their order, sends that payload as
    its body, registers one one-shot abort listener for it and sets
    [isUploading]; it emits no event, changes no object and returns a
    pending deferred. *)
Theorem upload_request (u : config) (hs : list (string * string))
    (files : files_arg) (extra : value) (st : state) (fields : FormData) :
  ajaxSettings_headers u = Some hs ->
  Uploader.createFormData u (heap_of st) files extra = Ret fields ->
  Uploader.upload u files extra st
  = (Ret (length (promises st)),
     State (heap_of st) true (isSigning st)
           (listeners st ++ [Listener "isAborting" true (length (xhrs st))])
           (emitted st)
           (xhrs st ++
              [Xhr (method u) (url u) hs [Function CallDidProgress]
                   (Some (UploadHandlers (length (promises st))))
                   [BodyForm fields] 0])
           (promises st ++ [Promise Pending []])).
Proof. apply upload_configured. Qed.

Lemma upload_request_witness :
  Uploader.upload configured (FileArray [VRef 0; VRef 0]) (VRef 1)
    (State [photo; plain [("caption", VStr "hi")]] false false [] [] [] [])
  = (Ret 0,
     State [photo; plain [("caption", VStr "hi")]] true false
           [Listener "isAborting" true 0] []
           [Xhr "POST" (VStr "/upload") [("X-Token", "t")] [Function CallDidProgress]
                (Some (UploadHandlers 0))
                [BodyForm [("caption", VStr "hi"); ("file[]", VRef 0); ("file[]", VRef 0)]]
                0]
           [Promise Pending []]).
Proof.
  exact (upload_request configured [("X-Token", "t")] (FileArray [VRef 0; VRef 0]) (VRef 1)
           (State [photo; plain [("caption", VStr "hi")]] false false [] [] [] [])
           [("caption", VStr "hi"); ("file[]", VRef 0); ("file[]", VRef 0)]
           eq_refl eq_refl).
Defined.

(** X4. Without a configured header mapping, [upload], once it has
    built its payload, throws the type error of C10 after it has set
    [isUploading]: the flag is left true although the request, opened
    with the configured method and URL, is never sent, no deferred exists
    and no abort listener is registered. *)
Theorem upload_unconfigured_sets_flag (u : config) (files : files_arg)
    (extra : value) (st : state) (fields : FormData) :
  ajaxSettings_headers u = None ->
  Uploader.createFormData u (heap_of st) files extra = Ret fields ->
  exists msg,
    Uploader.upload u files extra st
    = (Throw (TypeError msg),
       State (heap_of st) true (isSigning st) (listeners st) (emitted st)
             (xhrs st ++ [Xhr (method u) (url u) [] [] None [] 0])
             (promises st)).
Proof.
  intros Hhs Hfields. unfold Uploader.upload, bind, on_heap, modify. rewrite Hfields.
  rewrite (ajax_unconfigured _ _ _ _ _ Hhs). eexists. by destruct st.
Qed.

Lemma upload_unconfigured_sets_flag_witness :
  exists msg,
    Uploader.upload defaults (OneFile 0) VUndefined
      (State [photo] false false [] [] [] [])
    = (Throw (TypeError msg),
       State [photo] true false [] [] [Xhr "POST" VNull [] [] None [] 0] []).
Proof.
  exact (upload_unconfigured_sets_flag defaults (OneFile 0) VUndefined
           (State [photo] false false [] [] [] []) [("file", VRef 0)] eq_refl eq_refl).
Defined.

Lemma for_each_follow (E : engine) (u : config) (v : value) (rs : list reaction) :
  forallb is_follow rs = true ->
  forall st,
    for_each (react_fulfilled E u v) rs st
    = (Ret tt, with_promises (fulfil_derived v rs) st).
Proof.
  induction rs as [|r rs IH]; intros Hrs st.
  - by destruct st.
  - cbn in Hrs. apply andb_prop in Hrs as [Hr Hrs].
    destruct r as [|d]; [done|].
    cbn [for_each]. unfold bind at 1. cbn [react_fulfilled].
    unfold settle at 1, modify. rewrite (IH Hrs), with_promises_compose.
    reflexivity.
Qed.

Lemma fulfil_derived_settled v rs : forall ps p q,
  ps !! p = Some q -> p_state q <> Pending ->
  fulfil_derived v rs ps !! p = Some q.
Proof.
  induction rs as [|r rs IH]; intros ps p q Hp Hq; cbn; [done|].
  apply IH; [|done].
  destruct (decide (derived_of r = p)) as [->|Hne].
  - rewrite list_lookup_alter_eq, Hp. cbn. f_equal.
    unfold settle_in. by destruct (p_state q).
  - by rewrite list_lookup_alter_ne.
Qed.

(** The [load] handler of [ajaxPromise] on a request whose deferred is
    pending and is followed, if at all, by derived deferreds. *)
Lemma deliver_upload_completed (E : engine) (u : config) (st : state) (x : nat)
    (r : xhr) (p : nat) (rs : list reaction) (status : nat) (response : value) :
  quiet st ->
  xhrs st !! x = Some r ->
  x_handlers r = Some (UploadHandlers p) ->
  promises st !! p = Some (Promise Pending rs) ->
  forallb is_follow rs = true ->
  deliver E u x (Completed status response) st
  = (Ret tt,
     State (heap_of st) false (isSigning st) (listeners st)
           (emitted st ++ [("didUpload", [response])]) (xhrs st)
           (fulfil_derived response rs
              (alter (settle_in (Fulfilled response)) p (promises st)))).
Proof.
  intros Hq Hx Hh Hp Hrs. unfold deliver. unfold bind at 1, gets at 1.
  rewrite Hx, Hh. unfold Uploader.didUpload.
  unfold bind at 1. unfold bind at 1. unfold modify at 1.
  unfold bind at 1. rewrite trigger_eq.
  rewrite triggered_quiet by (by destruct st).
  unfold ret at 1. unfold resolve, pending_reactions.
  unfold bind at 1. unfold gets at 1.
  replace (promises (with_emitted _ (with_isUploading false st)) !! p)
    with (Some (Promise Pending rs)) by (by destruct st).
  unfold bind, settle, modify. rewrite (for_each_follow E u response rs Hrs).
  by destruct st.
Qed.

(** X5. Once [upload] has sent its request, a response of any HTTP
    status is the success of the upload: the deferred that [upload]
    returned is fulfilled with the response, the application sees one
    [didUpload] event carrying it, and [isUploading] is false again. *)
Theorem upload_completes (E : engine) (u : config) (hs : list (string * string))
    (files : files_arg) (extra : value) (st : state) (fields : FormData)
    (status : nat) (response : value) :
  ajaxSettings_headers u = Some hs ->
  Uploader.createFormData u (heap_of st) files extra = Ret fields ->
  quiet st ->
  exists st1 st2,
    Uploader.upload u files extra st = (Ret (length (promises st)), st1)
    /\ deliver E u (length (xhrs st)) (Completed status response) st1 = (Ret tt, st2)
    /\ p_state <$> promises st2 !! length (promises st) = Some (Fulfilled response)
    /\ emitted st2 = emitted st ++ [("didUpload", [response])]
    /\ isUploading st2 = false
    /\ heap_of st2 = heap_of st.
Proof.
  intros Hhs Hfields Hq. rewrite (upload_configured u hs files extra st fields Hhs Hfields).
  eexists _, _. split; [reflexivity|].
  match goal with
  | |- deliver _ _ _ _ ?st1 = _ /\ _ =>
      rewrite (deliver_upload_completed E u st1 (length (xhrs st))
                 (Xhr (method u) (url u) hs [Function CallDidProgress]
                      (Some (UploadHandlers (length (promises st))))
                      [BodyForm fields] 0)
                 (length (promises st)) [] status response)
  end.
  - split; [reflexivity|]. simpl_state. cbn [fulfil_derived foldl].
    rewrite alter_last. cbn [settle_in p_state p_reactions].
    rewrite list_lookup_middle by done. done.
  - unfold quiet in *. simpl_state. apply Forall_app. split; [done|].
    by repeat constructor.
  - simpl_state. by rewrite list_lookup_middle.
  - reflexivity.
  - simpl_state. by rewrite list_lookup_middle.
  - reflexivity.
Qed.

Lemma upload_completes_witness :
  exists st1 st2,
    Uploader.upload configured (OneFile 0) VUndefined
      (State [photo] false false [] [] [] []) = (Ret 0, st1)
    /\ deliver sample_engine configured 0 (Completed 201 (VStr "created")) st1
       = (Ret tt, st2)
    /\ p_state <$> promises st2 !! 0 = Some (Fulfilled (VStr "created"))
    /\ emitted st2 = [("didUpload", [VStr "created"])]
    /\ isUploading st2 = false
    /\ heap_of st2 = [photo].
Proof.
  apply (upload_completes sample_engine configured [("X-Token", "t")] (OneFile 0)
           VUndefined (State [photo] false false [] [] [] []) [("file", VRef 0)]
           201 (VStr "created"));
    [reflexivity | reflexivity | constructor].
Defined.

(** *** The signed upload *)

Lemma lookup_snoc_at {A} (xs ys : list A) (k : nat) :
  (xs ++ ys) !! (length xs + k) = ys !! k.
Proof. rewrite lookup_app_r by lia. f_equal. lia. Qed.

(** [SigningUploader.upload] once [sign] has issued its request. *)
Lemma signed_upload_issued (E : engine) (u : config) (shs : list (string * string))
    (file : files_arg) (extra : value) (st : state) (e : loc) (h0 : heap) (data : body) :
  signingAjaxSettings_headers u = Some shs ->
  extra_object (heap_of st) extra = Some (e, h0) ->
  (if match_get (signingMethod u) then Some (BodyObject e)
   else BodyText <$> JSON_stringify E (augmented file e h0) (VRef e)) = Some data ->
  SigningUploader.upload E u file extra st
  = (Ret (length (promises st) + 1),
     State (augmented file e h0) (isUploading st) true (listeners st) (emitted st)
           (xhrs st ++
              [Xhr (signingMethod u) (signingUrl u)
                   (("Content-Type", "application/json") :: shs) []
                   (Some (SignHandlers (length (promises st)))) [data] 0])
           (promises st ++
              [Promise Pending [ThenUpload file (length (promises st) + 1)];
               Promise Pending []])).
Proof.
  intros Hhs Hextra Hdata. unfold SigningUploader.upload. unfold bind at 1.
  rewrite (sign_configured E u shs file extra st e h0 data Hhs Hextra Hdata).
  unfold bind, promise_new, promise_then, modify, ret. simpl_state.
  rewrite length_app. cbn [length].
  rewrite <- app_assoc. cbn [app]. rewrite alter_snoc2_fst. reflexivity.
Qed.

(** The [load] handler of [sign] on a request whose deferred is pending
    and carries the callback of [SigningUploader.upload]. *)
Lemma deliver_sign_completed (E : engine) (u : config) (st : state) (x : nat)
    (r : xhr) (signed derived : nat) (file : files_arg) (status : nat) (json : value) :
  quiet st ->
  xhrs st !! x = Some r ->
  x_handlers r = Some (SignHandlers signed) ->
  promises st !! signed = Some (Promise Pending [ThenUpload file derived]) ->
  deliver E u x (Completed status json) st
  = (react_fulfilled E u json (ThenUpload file derived) ;; ret tt)
      (State (heap_of st) (isUploading st) (isSigning st) (listeners st)
             (emitted st ++ [("didSign", [json])]) (xhrs st)
             (alter (settle_in (Fulfilled json)) signed (promises st))).
Proof.
  intros Hq Hx Hh Hp. unfold deliver. unfold bind at 1, gets at 1.
  rewrite Hx, Hh. unfold SigningUploader.didSign.
  unfold bind at 1. unfold bind at 1. rewrite trigger_eq.
  rewrite triggered_quiet by done.
  unfold ret at 1. unfold resolve, pending_reactions.
  unfold bind at 1. unfold gets at 1.
  replace (promises (with_emitted _ st) !! signed)
    with (Some (Promise Pending [ThenUpload file derived])) by (by destruct st).
  unfold bind at 1. unfold settle at 1, modify. cbn [for_each].
  by destruct st.
Qed.

(** The signing response arrives: the upload request is issued from the
    policy, and the deferred that [upload] returned follows its deferred. *)
Lemma signed_upload_started (E : engine) (u : config) (hs : list (string * string))
    (file : files_arg) (l : loc) (json : object) (status : nat)
    (h : heap) (up sg : bool) (ls : list listener) (em : list (string * list value))
    (xs : list xhr) (ps : list promise) (signing : xhr)
    (target : value) (fields : FormData) :
  ajaxSettings_headers u = Some hs ->
  Forall (fun l => l_event l = "isAborting" /\ l_once l = true) ls ->
  x_handlers signing = Some (SignHandlers (length ps)) ->
  h !! l = Some json ->
  destination E h json = Ret target ->
  Uploader.createFormData u (<[l := stripped json]> h) file (VRef l) = Ret fields ->
  deliver E u (length xs) (Completed status (VRef l))
    (State h up sg ls em (xs ++ [signing])
           (ps ++ [Promise Pending [ThenUpload file (length ps + 1)];
                   Promise Pending []]))
  = (Ret tt,
     State (<[l := stripped json]> h) true sg
           (ls ++ [Listener "isAborting" true (length xs + 1)])
           (em ++ [("didSign", [VRef l])])
           (xs ++
              [signing;
               Xhr (method u) target hs [Function CallDidProgress]
                   (Some (UploadHandlers (length ps + 2)))
                   [BodyForm fields] 0])
           (ps ++ [Promise (Fulfilled (VRef l)) [ThenUpload file (length ps + 1)];
                   Promise Pending [];
                   Promise Pending [Follow (length ps + 1)]])).
Proof.
  intros Hhs Hq Hh Hl Htarget Hfields.
  rewrite (deliver_sign_completed E u _ (length xs) signing (length ps)
             (length ps + 1) file status (VRef l));
    [|done|by apply list_lookup_middle|done|by apply list_lookup_middle].
  simpl_state. rewrite alter_snoc2_fst. cbn [settle_in p_state p_reactions].
  unfold bind at 1. cbn [react_fulfilled].
  rewrite (upload_then_run E u file l json) by done. simpl_state.
  rewrite Htarget. cbv zeta. cbn [heap_of]. rewrite Hfields.
  rewrite (ajax_configured _ _ _ _ _ _ Hhs). simpl_state.
  unfold promise_then, modify, ret. simpl_state.
  rewrite !length_app. cbn [length].
  replace (length ps + 2) with (length (ps ++ [Promise (Fulfilled (VRef l))
             [ThenUpload file (length ps + 1)]; Promise Pending []]))
    by (rewrite length_app; cbn; lia).
  rewrite alter_last. rewrite length_app. cbn [length p_state p_reactions app].
  rewrite <- !app_assoc. cbn [app]. reflexivity.
Qed.

(** The [error] handler of [ajaxPromise] on a request whose deferred is
    pending. *)
Lemma deliver_upload_failed (E : engine) (u : config) (st : state) (x : nat)
    (r : xhr) (p : nat) (rs : list reaction) (evt : value) :
  quiet st ->
  xhrs st !! x = Some r ->
  x_handlers r = Some (UploadHandlers p) ->
  promises st !! p = Some (Promise Pending rs) ->
  exists h',
    deliver E u x (Failed evt) st
    = (Ret tt,
       State h' false (isSigning st) (listeners st)
             (emitted st ++ [("didError", [evt; VUndefined; VUndefined])]) (xhrs st)
             (reject_derived (RValue evt) rs
                (alter (settle_in (Rejected (RValue evt))) p (promises st)))).
Proof.
  intros Hq Hx Hh Hp. unfold deliver. unfold bind at 1, gets at 1.
  rewrite Hx, Hh. unfold bind at 1.
  destruct (didError_frame evt VUndefined VUndefined st) as [h' ->].
  rewrite triggered_quiet by done.
  unfold reject, pending_reactions. unfold bind at 1. unfold gets at 1.
  simpl_state. rewrite Hp.
  unfold bind, settle, modify. rewrite for_each_react_rejected.
  exists h'. by destruct st.
Qed.

Lemma quiet_registered (ls : list listener) (x : nat) :
  Forall (fun l => l_event l = "isAborting" /\ l_once l = true) ls ->
  Forall (fun l => l_event l = "isAborting" /\ l_once l = true)
         (ls ++ [Listener "isAborting" true x]).
Proof. intros Hls. apply Forall_app. split; [done|]. by repeat constructor. Qed.

(** X6. The signed upload, end to end. When the signing request is
    answered with a policy object from which a destination can be derived
    and form data built, the upload request is issued with the
    configured method and headers to the destination derived from the
    policy, carrying the policy (without the field that selected the
    destination) and the file as form data; when that request is answered
    in turn, the deferred that [SigningUploader.upload] returned at the
    start is fulfilled with the response of the upload, not with the
    policy, the application has seen [didSign] and then [didUpload], and
    [isUploading] is false. *)
Theorem signed_upload_completes (E : engine) (u : config)
    (shs hs : list (string * string)) (file : files_arg) (extra : value) (st : state)
    (e : loc) (h0 : heap) (l : loc) (json : object) (target : value)
    (fields : FormData) (s1 s2 : nat) (response : value) :
  quiet st ->
  signingAjaxSettings_headers u = Some shs ->
  ajaxSettings_headers u = Some hs ->
  extra_object (heap_of st) extra = Some (e, h0) ->
  (match_get (signingMethod u) = false ->
   is_Some (JSON_stringify E (augmented file e h0) (VRef e))) ->
  augmented file e h0 !! l = Some json ->
  destination E (augmented file e h0) json = Ret target ->
  Uploader.createFormData u (<[l := stripped json]> (augmented file e h0)) file (VRef l)
  = Ret fields ->
  exists st1 st2 st3,
    SigningUploader.upload E u file extra st = (Ret (length (promises st) + 1), st1)
    /\ deliver E u (length (xhrs st)) (Completed s1 (VRef l)) st1 = (Ret tt, st2)
    /\ xhrs st2 !! (length (xhrs st) + 1)
       = Some (Xhr (method u) target hs [Function CallDidProgress]
                   (Some (UploadHandlers (length (promises st) + 2)))
                   [BodyForm fields] 0)
    /\ isUploading st2 = true
    /\ deliver E u (length (xhrs st) + 1) (Completed s2 response) st2 = (Ret tt, st3)
    /\ p_state <$> promises st3 !! (length (promises st) + 1) = Some (Fulfilled response)
    /\ emitted st3 = emitted st ++ [("didSign", [VRef l]); ("didUpload", [response])]
    /\ isUploading st3 = false.
Proof.
  intros Hq Hshs Hhs Hextra Hjson Hl Htarget Hfields.
  destruct (sign_data_exists E u _ e Hjson) as (data & Hdata & _).
  rewrite (signed_upload_issued E u shs file extra st e h0 data Hshs Hextra Hdata).
  destruct st as [h up sg ls em xs ps]. unfold quiet in Hq. simpl_state.
  eexists _, _, _. split; [reflexivity|].
  rewrite (signed_upload_started E u hs file l json s1 _ _ _ _ _ _ _ _ target fields)
    by done.
  split; [reflexivity|]. simpl_state.
  split; [by rewrite lookup_snoc_at|]. split; [done|].
  match goal with
  | |- deliver _ _ _ _ ?st2 = _ /\ _ =>
      rewrite (deliver_upload_completed E u st2 (length xs + 1)
                 (Xhr (method u) target hs [Function CallDidProgress]
                      (Some (UploadHandlers (length ps + 2)))
                      [BodyForm fields] 0)
                 (length ps + 2) [Follow (length ps + 1)] s2 response)
  end.
  - split; [reflexivity|]. simpl_state.
    cbn [fulfil_derived foldl derived_of]. rewrite !alter_app_r. cbn.
    rewrite lookup_snoc_at. cbn. by rewrite <- app_assoc.
  - by apply quiet_registered.
  - simpl_state. by rewrite lookup_snoc_at.
  - reflexivity.
  - simpl_state. by rewrite lookup_snoc_at.
  - reflexivity.
Qed.

Lemma signed_upload_completes_witness :
  exists st1 st2 st3,
    SigningUploader.upload sample_engine configured (OneFile 0) (VRef 1)
      (State [photo; plain []; plain [("endpoint", VStr "https://cdn.example/up");
                                      ("key", VStr "k")]]
             false false [] [] [] [])
    = (Ret 1, st1)
    /\ deliver sample_engine configured 0 (Completed 200 (VRef 2)) st1 = (Ret tt, st2)
    /\ xhrs st2 !! 1
       = Some (Xhr "POST" (VStr "https://cdn.example/up") [("X-Token", "t")]
                   [Function CallDidProgress] (Some (UploadHandlers 2))
                   [BodyForm [("key", VStr "k"); ("file", VRef 0)]] 0)
    /\ isUploading st2 = true
    /\ deliver sample_engine configured 1 (Completed 204 VNull) st2 = (Ret tt, st3)
    /\ p_state <$> promises st3 !! 1 = Some (Fulfilled VNull)
    /\ emitted st3 = [("didSign", [VRef 2]); ("didUpload", [VNull])]
    /\ isUploading st3 = false.
Proof.
  apply (signed_upload_completes sample_engine configured [("Authorization", "k")]
           [("X-Token", "t")] (OneFile 0) (VRef 1)
           (State [photo; plain []; plain [("endpoint", VStr "https://cdn.example/up");
                                           ("key", VStr "k")]]
                  false false [] [] [] [])
           1 [photo; plain []; plain [("endpoint", VStr "https://cdn.example/up");
                                      ("key", VStr "k")]]
           2 (plain [("endpoint", VStr "https://cdn.example/up"); ("key", VStr "k")])
           (VStr "https://cdn.example/up") [("key", VStr "k"); ("file", VRef 0)]
           200 204 VNull);
    [constructor | reflexivity | reflexivity | reflexivity | discriminate
    | reflexivity | reflexivity | reflexivity].
Defined.

(** X7. When the upload request of a signed upload, issued from a
    policy object that gives a destination and form data, fails at the
    network level, the deferred that [SigningUploader.upload] returned is rejected
    with what the transport reported, after [didSign] the application sees
    [didError], and [isUploading] is false. *)
Theorem signed_upload_fails (E : engine) (u : config)
    (shs hs : list (string * string)) (file : files_arg) (extra : value) (st : state)
    (e : loc) (h0 : heap) (l : loc) (json : object) (target : value)
    (fields : FormData) (s1 : nat) (evt : value) :
  quiet st ->
  signingAjaxSettings_headers u = Some shs ->
  ajaxSettings_headers u = Some hs ->
  extra_object (heap_of st) extra = Some (e, h0) ->
  (match_get (signingMethod u) = false ->
   is_Some (JSON_stringify E (augmented file e h0) (VRef e))) ->
  augmented file e h0 !! l = Some json ->
  destination E (augmented file e h0) json = Ret target ->
  Uploader.createFormData u (<[l := stripped json]> (augmented file e h0)) file (VRef l)
  = Ret fields ->
  exists st1 st2 st3,
    SigningUploader.upload E u file extra st = (Ret (length (promises st) + 1), st1)
    /\ deliver E u (length (xhrs st)) (Completed s1 (VRef l)) st1 = (Ret tt, st2)
    /\ deliver E u (length (xhrs st) + 1) (Failed evt) st2 = (Ret tt, st3)
    /\ p_state <$> promises st3 !! (length (promises st) + 1)
       = Some (Rejected (RValue evt))
    /\ emitted st3
       = emitted st ++ [("didSign", [VRef l]);
                        ("didError", [evt; VUndefined; VUndefined])]
    /\ isUploading st3 = false.
Proof.
  intros Hq Hshs Hhs Hextra Hjson Hl Htarget Hfields.
  destruct (sign_data_exists E u _ e Hjson) as (data & Hdata & _).
  rewrite (signed_upload_issued E u shs file extra st e h0 data Hshs Hextra Hdata).
  destruct st as [h up sg ls em xs ps]. unfold quiet in Hq. simpl_state.
  pose proof (signed_upload_started E u hs file l json s1 (augmented file e h0)
                up true ls em xs ps
                (Xhr (signingMethod u) (signingUrl u)
                     (("Content-Type", "application/json") :: shs) []
                     (Some (SignHandlers (length ps))) [data] 0)
                target fields Hhs Hq eq_refl Hl Htarget Hfields) as Hstart.
  match type of Hstart with
  | _ = (_, ?st2) =>
      destruct (deliver_upload_failed E u st2 (length xs + 1)
                  (Xhr (method u) target hs [Function CallDidProgress]
                       (Some (UploadHandlers (length ps + 2)))
                       [BodyForm fields] 0)
                  (length ps + 2) [Follow (length ps + 1)] evt)
        as [h' Hfail]
  end.
  - by apply quiet_registered.
  - simpl_state. by rewrite lookup_snoc_at.
  - reflexivity.
  - simpl_state. by rewrite lookup_snoc_at.
  - eexists _, _, _. split; [reflexivity|]. split; [exact Hstart|].
    split; [exact Hfail|]. simpl_state.
    cbn [reject_derived foldl derived_of]. rewrite !alter_app_r. cbn.
    rewrite lookup_snoc_at. cbn. by rewrite <- app_assoc.
Qed.

Lemma signed_upload_fails_witness :
  exists st1 st2 st3,
    SigningUploader.upload sample_engine configured (OneFile 0) (VRef 1)
      (State [photo; plain []; plain [("bucket", VStr "b")]] false false [] [] [] [])
    = (Ret 1, st1)
    /\ deliver sample_engine configured 0 (Completed 200 (VRef 2)) st1 = (Ret tt, st2)
    /\ deliver sample_engine configured 1 (Failed (VStr "offline")) st2 = (Ret tt, st3)
    /\ p_state <$> promises st3 !! 1 = Some (Rejected (RValue (VStr "offline")))
    /\ emitted st3
       = [("didSign", [VRef 2]); ("didError", [VStr "offline"; VUndefined; VUndefined])]
    /\ isUploading st3 = false.
Proof.
  apply (signed_upload_fails sample_engine configured [("Authorization", "k")]
           [("X-Token", "t")] (OneFile 0) (VRef 1)
           (State [photo; plain []; plain [("bucket", VStr "b")]] false false [] [] [] [])
           1 [photo; plain []; plain [("bucket", VStr "b")]]
           2 (plain [("bucket", VStr "b")])
           (VStr "https://b.s3.amazonaws.com") [("bucket", VStr "b"); ("file", VRef 0)]
           200 (VStr "offline"));
    [constructor | reflexivity | reflexivity | reflexivity | discriminate
    | reflexivity | reflexivity | reflexivity].
Defined.

(** X8. In a signed upload, a missing upload header mapping does not
    surface as a thrown error: [ajax] throws inside the callback that runs
    when the policy arrives, after the destination and the form data have
    been derived from the policy, so the deferred that
    [SigningUploader.upload] returned is rejected with the type error.
    The upload request has been opened but is never sent, and
    [isUploading] stays true. *)
Theorem signed_upload_unconfigured_rejects (E : engine) (u : config)
    (shs : list (string * string)) (file : files_arg) (extra : value) (st : state)
    (e : loc) (h0 : heap) (l : loc) (json : object) (target : value)
    (fields : FormData) (s1 : nat) :
  quiet st ->
  signingAjaxSettings_headers u = Some shs ->
  ajaxSettings_headers u = None ->
  extra_object (heap_of st) extra = Some (e, h0) ->
  (match_get (signingMethod u) = false ->
   is_Some (JSON_stringify E (augmented file e h0) (VRef e))) ->
  augmented file e h0 !! l = Some json ->
  destination E (augmented file e h0) json = Ret target ->
  Uploader.createFormData u (<[l := stripped json]> (augmented file e h0)) file (VRef l)
  = Ret fields ->
  exists st1 st2 msg,
    SigningUploader.upload E u file extra st = (Ret (length (promises st) + 1), st1)
    /\ deliver E u (length (xhrs st)) (Completed s1 (VRef l)) st1 = (Ret tt, st2)
    /\ p_state <$> promises st2 !! (length (promises st) + 1)
       = Some (Rejected (RError (TypeError msg)))
    /\ x_sent <$> xhrs st2 !! (length (xhrs st) + 1) = Some []
    /\ length (xhrs st2) = length (xhrs st) + 2
    /\ isUploading st2 = true.
Proof.
  intros Hq Hshs Hhs Hextra Hjson Hl Htarget Hfields.
  destruct (sign_data_exists E u _ e Hjson) as (data & Hdata & _).
  rewrite (signed_upload_issued E u shs file extra st e h0 data Hshs Hextra Hdata).
  destruct st as [h up sg ls em xs ps]. unfold quiet in Hq. simpl_state.
  eexists _, _, _. split; [reflexivity|].
  rewrite (deliver_sign_completed E u _ (length xs)
             (Xhr (signingMethod u) (signingUrl u)
                  (("Content-Type", "application/json") :: shs) []
                  (Some (SignHandlers (length ps))) [data] 0)
             (length ps) (length ps + 1) file s1 (VRef l));
    [|done|by apply list_lookup_middle|done|by apply list_lookup_middle].
  simpl_state. rewrite alter_snoc2_fst. cbn [settle_in p_state p_reactions].
  unfold bind at 1. cbn [react_fulfilled].
  rewrite (upload_then_run E u file l json) by done. simpl_state.
  rewrite Htarget. cbv zeta. cbn [heap_of]. rewrite Hfields.
  rewrite (ajax_unconfigured _ _ _ _ _ Hhs).
  unfold settle, modify, ret. simpl_state.
  split; [reflexivity|]. simpl_state.
  replace (length ps + 1) with (S (length ps)) by lia.
  rewrite alter_snoc2_snd, lookup_snoc2_snd. cbn [settle_in p_state].
  split; [reflexivity|].
  rewrite <- app_assoc. cbn [app]. rewrite lookup_snoc_at.
  split; [reflexivity|]. split; [|done].
  rewrite length_app. cbn. lia.
Qed.

Lemma signed_upload_unconfigured_rejects_witness :
  exists st1 st2 msg,
    SigningUploader.upload sample_engine
      (Config (VStr "/upload") "POST" None "file" None
              (VStr "/sign") "GET" (Some []))
      (OneFile 0) VUndefined
      (State [photo; plain [("bucket", VStr "b")]] false false [] [] [] [])
    = (Ret 1, st1)
    /\ deliver sample_engine
         (Config (VStr "/upload") "POST" None "file" None
                 (VStr "/sign") "GET" (Some []))
         0 (Completed 200 (VRef 1)) st1 = (Ret tt, st2)
    /\ p_state <$> promises st2 !! 1 = Some (Rejected (RError (TypeError msg)))
    /\ x_sent <$> xhrs st2 !! 1 = Some []
    /\ length (xhrs st2) = 2
    /\ isUploading st2 = true.
Proof.
  apply (signed_upload_unconfigured_rejects sample_engine
           (Config (VStr "/upload") "POST" None "file" None
                   (VStr "/sign") "GET" (Some []))
           [] (OneFile 0) VUndefined
           (State [photo; plain [("bucket", VStr "b")]] false false [] [] [] [])
           2 [photo; plain [("bucket", VStr "b")]; plain []]
           1 (plain [("bucket", VStr "b")])
           (VStr "https://b.s3.amazonaws.com") [("bucket", VStr "b"); ("file", VRef 0)]
           200);
    [constructor | reflexivity | reflexivity | reflexivity | discriminate
    | reflexivity | reflexivity | reflexivity].
Defined.

(** X9. When the signing request is answered with [null] or with no
    value at all, the callback of [SigningUploader.upload] fails on
    reading [endpoint] after it has set [isUploading]: the returned
    deferred is rejected with a type error, no upload request is created,
    and [isUploading] stays true. *)
Theorem signed_upload_without_policy (E : engine) (u : config)
    (shs : list (string * string)) (file : files_arg) (extra : value) (st : state)
    (e : loc) (h0 : heap) (json : value) (s1 : nat) :
  quiet st ->
  signingAjaxSettings_headers u = Some shs ->
  extra_object (heap_of st) extra = Some (e, h0) ->
  (match_get (signingMethod u) = false ->
   is_Some (JSON_stringify E (augmented file e h0) (VRef e))) ->
  json = VNull \/ json = VUndefined ->
  exists st1 st2 msg,
    SigningUploader.upload E u file extra st = (Ret (length (promises st) + 1), st1)
    /\ deliver E u (length (xhrs st)) (Completed s1 json) st1 = (Ret tt, st2)
    /\ p_state <$> promises st2 !! (length (promises st) + 1)
       = Some (Rejected (RError (TypeError msg)))
    /\ length (xhrs st2) = length (xhrs st) + 1
    /\ emitted st2 = emitted st ++ [("didSign", [json])]
    /\ isUploading st2 = true.
Proof.
  intros Hq Hshs Hextra Hjson Hnull.
  destruct (sign_data_exists E u _ e Hjson) as (data & Hdata & _).
  rewrite (signed_upload_issued E u shs file extra st e h0 data Hshs Hextra Hdata).
  destruct st as [h up sg ls em xs ps]. unfold quiet in Hq. simpl_state.
  eexists _, _, _. split; [reflexivity|].
  rewrite (deliver_sign_completed E u _ (length xs)
             (Xhr (signingMethod u) (signingUrl u)
                  (("Content-Type", "application/json") :: shs) []
                  (Some (SignHandlers (length ps))) [data] 0)
             (length ps) (length ps + 1) file s1 json);
    [|done|by apply list_lookup_middle|done|by apply list_lookup_middle].
  simpl_state. rewrite alter_snoc2_fst. cbn [settle_in p_state p_reactions].
  unfold bind at 1. cbn [react_fulfilled].
  replace (length ps + 1) with (S (length ps)) by lia.
  destruct Hnull as [-> | ->];
    unfold SigningUploader.upload_then, member, bind, modify, throw, settle, ret;
    simpl_state;
    (split; [reflexivity|]); simpl_state;
    rewrite alter_snoc2_snd, lookup_snoc2_snd; cbn [settle_in p_state];
    (split; [reflexivity|]); (split; [by rewrite length_app|]); done.
Qed.

Lemma signed_upload_without_policy_witness :
  exists st1 st2 msg,
    SigningUploader.upload sample_engine configured (OneFile 0) VUndefined
      (State [photo] false false [] [] [] []) = (Ret 1, st1)
    /\ deliver sample_engine configured 0 (Completed 200 VNull) st1 = (Ret tt, st2)
    /\ p_state <$> promises st2 !! 1 = Some (Rejected (RError (TypeError msg)))
    /\ length (xhrs st2) = 1
    /\ emitted st2 = [("didSign", [VNull])]
    /\ isUploading st2 = true.
Proof.
  apply (signed_upload_without_policy sample_engine configured [("Authorization", "k")]
           (OneFile 0) VUndefined (State [photo] false false [] [] [] [])
           1 [photo; plain []] VNull 200);
    [constructor | reflexivity | reflexivity | discriminate | by left].
Defined.

(** *** What [sign] does to [extra] *)

Lemma has_key_assoc_set_eq k v ps : has_key k (assoc_set k v ps) = true.
Proof. unfold has_key. by rewrite assoc_set_eq. Qed.

Lemma has_key_assoc_set_ne k k' v ps :
  String.eqb k' k = false -> has_key k' (assoc_set k v ps) = has_key k' ps.
Proof. intros Hne. unfold has_key. by rewrite assoc_set_ne. Qed.

Lemma hasOwnProperty_set_prop_eq k v o : hasOwnProperty (set_prop k v o) k = true.
Proof.
  unfold hasOwnProperty, set_prop.
  destruct (has_key k (hidden o) && negb (has_key k (own o))); cbn;
    rewrite has_key_assoc_set_eq; first [apply orb_true_r | reflexivity].
Qed.

Lemma hasOwnProperty_set_prop_ne k k' v o :
  String.eqb k' k = false ->
  hasOwnProperty (set_prop k v o) k' = hasOwnProperty o k'.
Proof.
  intros Hne. unfold hasOwnProperty, set_prop.
  destruct (has_key k (hidden o) && negb (has_key k (own o))); cbn;
    by rewrite has_key_assoc_set_ne.
Qed.

Lemma file_prop_assign (file : files_arg) (k k' : string) (v : value) (e : loc) (h : heap) :
  String.eqb k' k = false ->
  file_prop (alter (set_prop k v) e h) file k' = file_prop h file k'.
Proof.
  intros Hne. destruct file as [f|fs|fs]; [|done..]. cbn.
  destruct (decide (e = f)) as [->|Hf].
  - rewrite list_lookup_alter_eq. unfold loc in *.
    destruct (h !! f); cbn; [|reflexivity].
    by apply get_set_prop_ne.
  - by rewrite list_lookup_alter_ne.
Qed.

(** The object that [sign] has augmented. *)
Lemma augmented_lookup (file : files_arg) (e : loc) (h : heap) (o : object) :
  h !! e = Some o ->
  augmented file e h !! e
  = Some (set_prop "size" (file_prop h file "size")
            (set_prop "type" (file_prop h file "type")
               (set_prop "name" (file_prop h file "name") o))).
Proof.
  intros He. unfold augmented, assign_from, loc in *.
  rewrite !list_lookup_alter_eq, He. cbn.
  by rewrite !file_prop_assign.
Qed.

(** X10. [sign] writes into the [extra] object of its caller: after the
    call that object has own properties [name], [type] and [size] holding
    what the file argument had under these names when [sign] was called
    ([undefined] for a sequence of files), whatever [extra] held there
    before; its other properties are as they were, and no other object
    has changed. *)
Theorem sign_augments_extra (E : engine) (u : config) (shs : list (string * string))
    (file : files_arg) (extra : value) (st : state) (e : loc) (h0 : heap) (o : object) :
  signingAjaxSettings_headers u = Some shs ->
  extra_object (heap_of st) extra = Some (e, h0) ->
  (match_get (signingMethod u) = false ->
   is_Some (JSON_stringify E (augmented file e h0) (VRef e))) ->
  h0 !! e = Some o ->
  exists st' o',
    SigningUploader.sign E u file extra st = (Ret (length (promises st)), st')
    /\ heap_of st' !! e = Some o'
    /\ (forall k, In k ["name"; "type"; "size"] ->
          get_prop o' k = file_prop h0 file k /\ hasOwnProperty o' k = true)
    /\ (forall k, ~ In k ["name"; "type"; "size"] ->
          get_prop o' k = get_prop o k /\ hasOwnProperty o' k = hasOwnProperty o k)
    /\ (forall l, l <> e -> heap_of st' !! l = h0 !! l).
Proof.
  intros Hshs Hextra Hjson He.
  destruct (sign_data_exists E u _ e Hjson) as (data & Hdata & _).
  rewrite (sign_configured E u shs file extra st e h0 data Hshs Hextra Hdata).
  eexists _, _. split; [reflexivity|]. simpl_state.
  split; [by apply augmented_lookup|]. split; [|split].
  - intros k [<-|[<-|[<-|[]]]]; split;
      rewrite ?get_set_prop_ne, ?hasOwnProperty_set_prop_ne by done;
      first [apply get_set_prop_eq | apply hasOwnProperty_set_prop_eq].
  - intros k Hk.
    assert (String.eqb k "name" = false /\ String.eqb k "type" = false
            /\ String.eqb k "size" = false) as (H1 & H2 & H3).
    { repeat split; apply String.eqb_neq; intros ->; apply Hk; cbn; tauto. }
    by rewrite !get_set_prop_ne, !hasOwnProperty_set_prop_ne.
  - intros l Hl. unfold augmented, assign_from.
    by rewrite !list_lookup_alter_ne.
Qed.

Lemma sign_augments_extra_witness :
  exists st' o',
    SigningUploader.sign sample_engine configured (OneFile 0) (VRef 1)
      (State [photo; plain [("name", VStr "old"); ("acl", VStr "private")]]
             false false [] [] [] [])
    = (Ret 0, st')
    /\ heap_of st' !! 1 = Some o'
    /\ (forall k, In k ["name"; "type"; "size"] ->
          get_prop o' k = get_prop photo k /\ hasOwnProperty o' k = true)
    /\ (forall k, ~ In k ["name"; "type"; "size"] ->
          get_prop o' k = get_prop (plain [("name", VStr "old"); ("acl", VStr "private")]) k
          /\ hasOwnProperty o' k
             = hasOwnProperty (plain [("name", VStr "old"); ("acl", VStr "private")]) k)
    /\ (forall l, l <> 1 ->
          heap_of st' !! l
          = [photo; plain [("name", VStr "old"); ("acl", VStr "private")]] !! l).
Proof.
  apply (sign_augments_extra sample_engine configured [("Authorization", "k")]
           (OneFile 0) (VRef 1)
           (State [photo; plain [("name", VStr "old"); ("acl", VStr "private")]]
                  false false [] [] [] [])
           1 [photo; plain [("name", VStr "old"); ("acl", VStr "private")]]
           (plain [("name", VStr "old"); ("acl", VStr "private")]));
    [reflexivity | reflexivity | discriminate | reflexivity].
Defined.

(** *** The error hooks *)

(** X11. [didErrorOnSign] returns its first argument, leaves both
    [isSigning] and [isUploading] false, and makes the application see
    [didErrorOnSign] without any payload followed by [didError] with the
    three arguments; it settles no deferred. *)
Theorem didErrorOnSign_resets_flags (errObj ts et : value) (st : state) :
  exists st',
    SigningUploader.didErrorOnSign errObj ts et st = (Ret errObj, st')
    /\ isSigning st' = false
    /\ isUploading st' = false
    /\ emitted st' = emitted st ++ [("didErrorOnSign", []); ("didError", [errObj; ts; et])]
    /\ promises st' = promises st.
Proof.
  unfold SigningUploader.didErrorOnSign.
  unfold bind at 1. unfold modify at 1. unfold bind at 1. rewrite trigger_eq.
  unfold bind at 1.
  match goal with
  | |- context [Uploader.didError ?a ?b ?c ?s] =>
      destruct (didError_frame a b c s) as [h' ->]
  end.
  eexists. split; [reflexivity|]. destruct st. unfold triggered. simpl_state.
  repeat split. by rewrite <- app_assoc.
Qed.

(** X12. A thrown error that the error object already records is kept:
    when [errObj.errorThrown] is truthy, [didError] leaves it as it is,
    creates no [Error], and changes nothing in [errObj] but [then]. *)
Theorem didError_keeps_recorded_error (ts et : value) (st : state) (l : loc) (o : object) :
  heap_of st !! l = Some o ->
  truthy (get_prop o "errorThrown") = true ->
  exists st',
    Uploader.didError (VRef l) ts et st = (Ret (VRef l), st')
    /\ heap_of st' = <[l := set_prop "then" VNull o]> (heap_of st)
    /\ (forall k, k <> "then" -> get_prop (set_prop "then" VNull o) k = get_prop o k).
Proof.
  intros Hl Hprior. destruct st as [h up sg ls em xs ps]. simpl_state.
  unfold Uploader.didError.
  unfold bind at 1. unfold modify at 1.
  unfold bind at 1.
  unfold bind at 1. unfold heap_set at 1, modify. unfold bind at 1, heap_get, gets.
  simpl_state.
  rewrite (heap_set_lookup _ _ _ _ _ Hl). cbn [from_option].
  rewrite get_set_prop_ne by done. rewrite Hprior.
  unfold ret at 1. unfold bind. rewrite trigger_eq. unfold triggered. simpl_state.
  eexists. split; [reflexivity|]. simpl_state.
  split; [by apply alter_insert|].
  intros k Hk. apply get_set_prop_ne. by apply String.eqb_neq.
Qed.

Lemma didError_keeps_recorded_error_witness :
  exists st',
    Uploader.didError (VRef 0) (VStr "error") (VStr "timeout")
      (State [plain [("errorThrown", VStr "first")]] true false [] [] [] [])
    = (Ret (VRef 0), st')
    /\ heap_of st' = [plain [("errorThrown", VStr "first"); ("then", VNull)]].
Proof.
  destruct (didError_keeps_recorded_error (VStr "error") (VStr "timeout")
              (State [plain [("errorThrown", VStr "first")]] true false [] [] [] [])
              0 (plain [("errorThrown", VStr "first")]) eq_refl eq_refl)
    as (st' & Hrun & Hheap & _).
  exists st'. split; [exact Hrun|]. rewrite Hheap. reflexivity.
Defined.

(** X13. [didError] changes no object other than the one it is given:
    every other object of the heap is the same afterwards, also when an
    [Error] is created for a string reason. *)
Theorem didError_touches_only_errObj (errObj ts et : value) (st : state)
    (l : loc) (o : object) :
  heap_of st !! l = Some o ->
  errObj <> VRef l ->
  exists st',
    Uploader.didError errObj ts et st = (Ret errObj, st')
    /\ heap_of st' !! l = Some o.
Proof.
  intros Hl Hne. destruct st as [h up sg ls em xs ps]. simpl_state.
  assert (Hlt : l < length h) by (by eapply lookup_lt_Some).
  unfold Uploader.didError.
  destruct errObj as [| |b|x|s|l'];
    try (unfold bind, modify, ret; simpl_state; rewrite trigger_eq; by eexists).
  assert (l' <> l) by congruence.
  unfold bind at 1. unfold modify at 1.
  unfold bind at 1.
  unfold bind at 1. unfold heap_set at 1, modify. unfold bind at 1, heap_get, gets.
  simpl_state.
  destruct (truthy _).
  - unfold ret at 1. unfold bind. rewrite trigger_eq. unfold triggered. simpl_state.
    eexists. split; [reflexivity|]. simpl_state. by rewrite list_lookup_alter_ne.
  - destruct et; unfold bind, new_Error, alloc, heap_set, modify; simpl_state;
      rewrite trigger_eq; unfold triggered; simpl_state;
      (eexists; split; [reflexivity|]); simpl_state;
      rewrite ?list_lookup_alter_ne by done;
      rewrite ?lookup_app_l by (by rewrite length_alter);
      by rewrite ?list_lookup_alter_ne.
Qed.

Lemma didError_touches_only_errObj_witness :
  exists st',
    Uploader.didError (VRef 0) (VStr "error") (VStr "timeout")
      (State [plain []; photo] true false [] [] [] []) = (Ret (VRef 0), st')
    /\ heap_of st' !! 1 = Some photo.
Proof.
  apply (didError_touches_only_errObj (VRef 0) (VStr "error") (VStr "timeout")
           (State [plain []; photo] true false [] [] [] []) 1 photo);
    [reflexivity | discriminate].
Defined.

(** *** Abort *)

Lemma aborted_iter (n : nat) (r : xhr) :
  Nat.iter n aborted r
  = Xhr (x_method r) (x_url r) (x_headers r) (x_progress r) (x_handlers r)
        (x_sent r) (x_aborts r + n).
Proof.
  induction n as [|n IH].
  - cbn. rewrite Nat.add_0_r. by destruct r.
  - rewrite Nat.iter_succ, IH. unfold aborted. cbn. f_equal. lia.
Qed.

(** Each listener calls [abort] on its request once. *)
Lemma abort_each_lookup (x : nat) (ls : list listener) : forall xs,
  abort_each ls xs !! x = Nat.iter (aborting x ls) aborted <$> xs !! x.
Proof.
  induction ls as [|l ls IH]; intros xs.
  - cbn. by destruct (xs !! x).
  - change (abort_each (l :: ls) xs) with (abort_each ls (alter aborted (l_abort l) xs)).
    rewrite IH. unfold aborting. cbn [List.filter].
    destruct (Nat.eqb (l_abort l) x) eqn:Hx.
    + apply Nat.eqb_eq in Hx. rewrite Hx, list_lookup_alter_eq. cbn [length].
      destruct (xs !! x) as [r|]; [|reflexivity].
      change (Some (Nat.iter (aborting x ls) aborted (aborted r))
              = Some (Nat.iter (S (aborting x ls)) aborted r)).
      by rewrite Nat.iter_succ_r.
    + apply Nat.eqb_neq in Hx. by rewrite list_lookup_alter_ne.
Qed.

Lemma aborting_none (x : nat) (ls : list listener) :
  Forall (fun l => l_abort l <> x) ls -> aborting x ls = 0.
Proof.
  unfold aborting. induction 1 as [|l ls Hl _ IH]; cbn; [done|].
  apply Nat.eqb_neq in Hl. by rewrite Hl.
Qed.

Lemma quiet_filter_isAborting (ls : list listener) :
  Forall (fun l => l_event l = "isAborting" /\ l_once l = true) ls ->
  List.filter (fires "isAborting") ls = ls
  /\ List.filter (fun l => negb (fires "isAborting" l && l_once l)) ls = [].
Proof.
  induction 1 as [|l ls [Hl Ho] _ [IH1 IH2]]; [done|].
  cbn [List.filter].
  replace (fires "isAborting" l) with true by (unfold fires; by rewrite Hl).
  rewrite Ho. cbn. by rewrite IH1, IH2.
Qed.

(** X14. [abort()] calls the abort primitive of a request once for each
    [isAborting] listener registered for it, so not at all for a request
    that has none; it changes nothing else in the request, settles no
    deferred, changes no object and leaves [isUploading] false. *)
Theorem abort_calls_each_listener (st : state) (x : nat) (r : xhr) :
  xhrs st !! x = Some r ->
  exists st',
    Uploader.abort st = (Ret tt, st')
    /\ xhrs st' !! x
       = Some (Xhr (x_method r) (x_url r) (x_headers r) (x_progress r) (x_handlers r)
                   (x_sent r)
                   (x_aborts r
                    + aborting x (List.filter (fires "isAborting") (listeners st))))
    /\ isUploading st' = false
    /\ promises st' = promises st
    /\ heap_of st' = heap_of st
    /\ emitted st' = emitted st ++ [("isAborting", [])].
Proof.
  intros Hx. rewrite abort_eq. eexists. split; [reflexivity|].
  destruct st as [h up sg ls em xs ps]. unfold triggered. simpl_state.
  rewrite abort_each_lookup, Hx. cbn. by rewrite aborted_iter.
Qed.

Lemma abort_calls_each_listener_witness :
  exists st',
    Uploader.abort
      (State [] true false [Listener "isAborting" true 1] []
             [Xhr "POST" (VStr "/a") [] [] None [BodyForm []] 0;
              Xhr "POST" (VStr "/b") [] [] None [BodyForm []] 0] [])
    = (Ret tt, st')
    /\ xhrs st' !! 0 = Some (Xhr "POST" (VStr "/a") [] [] None [BodyForm []] 0)
    /\ isUploading st' = false.
Proof.
  destruct (abort_calls_each_listener
              (State [] true false [Listener "isAborting" true 1] []
                     [Xhr "POST" (VStr "/a") [] [] None [BodyForm []] 0;
                      Xhr "POST" (VStr "/b") [] [] None [BodyForm []] 0] [])
              0 _ eq_refl)
    as (st' & Hrun & Hx & Hflag & _).
  exists st'. split; [exact Hrun|]. split; [exact Hx|exact Hflag].
Defined.

(** X15. Completion does not unregister the abort listener of a request:
    an [abort()] that comes after an upload has completed, its deferred
    fulfilled, still calls the abort primitive of the finished request. *)
Theorem abort_after_completion (E : engine) (u : config) (hs : list (string * string))
    (files : files_arg) (extra : value) (st : state) (fields : FormData)
    (status : nat) (response : value) :
  ajaxSettings_headers u = Some hs ->
  Uploader.createFormData u (heap_of st) files extra = Ret fields ->
  quiet st -> bound st ->
  exists st1 st2 st3,
    Uploader.upload u files extra st = (Ret (length (promises st)), st1)
    /\ deliver E u (length (xhrs st)) (Completed status response) st1 = (Ret tt, st2)
    /\ p_state <$> promises st2 !! length (promises st) = Some (Fulfilled response)
    /\ x_aborts <$> xhrs st2 !! length (xhrs st) = Some 0
    /\ Uploader.abort st2 = (Ret tt, st3)
    /\ x_aborts <$> xhrs st3 !! length (xhrs st) = Some 1.
Proof.
  intros Hhs Hfields Hq Hb.
  rewrite (upload_configured u hs files extra st fields Hhs Hfields).
  eexists _, _, _. split; [reflexivity|].
  match goal with
  | |- deliver _ _ _ _ ?st1 = _ /\ _ =>
      rewrite (deliver_upload_completed E u st1 (length (xhrs st))
                 (Xhr (method u) (url u) hs [Function CallDidProgress]
                      (Some (UploadHandlers (length (promises st))))
                      [BodyForm fields] 0)
                 (length (promises st)) [] status response)
  end.
  - split; [reflexivity|]. simpl_state. cbn [fulfil_derived foldl].
    rewrite alter_last. cbn [settle_in p_state p_reactions].
    rewrite !list_lookup_middle by done. split; [done|]. split; [done|].
    rewrite abort_eq. split; [reflexivity|].
    unfold triggered. simpl_state.
    rewrite abort_each_lookup, list_lookup_middle by done. cbn.
    rewrite aborted_iter. cbn. do 2 f_equal.
    destruct (quiet_filter_isAborting _ (quiet_registered _ (length (xhrs st)) Hq))
      as [-> _].
    unfold aborting. rewrite List.filter_app, length_app. cbn.
    rewrite Nat.eqb_refl. cbn.
    fold (aborting (length (xhrs st)) (listeners st)).
    rewrite aborting_none; [done|].
    unfold bound in Hb. eapply Forall_impl; [exact Hb|]. cbn. intros l Hl. lia.
  - by apply quiet_registered.
  - simpl_state. by rewrite list_lookup_middle.
  - reflexivity.
  - simpl_state. by rewrite list_lookup_middle.
  - reflexivity.
Qed.

Lemma abort_after_completion_witness :
  exists st1 st2 st3,
    Uploader.upload configured (OneFile 0) VUndefined
      (State [photo] false false [] [] [] []) = (Ret 0, st1)
    /\ deliver sample_engine configured 0 (Completed 200 (VStr "ok")) st1 = (Ret tt, st2)
    /\ p_state <$> promises st2 !! 0 = Some (Fulfilled (VStr "ok"))
    /\ x_aborts <$> xhrs st2 !! 0 = Some 0
    /\ Uploader.abort st2 = (Ret tt, st3)
    /\ x_aborts <$> xhrs st3 !! 0 = Some 1.
Proof.
  apply (abort_after_completion sample_engine configured [("X-Token", "t")] (OneFile 0)
           VUndefined (State [photo] false false [] [] [] []) [("file", VRef 0)]
           200 (VStr "ok"));
    [reflexivity | reflexivity | constructor | constructor].
Defined.

Lemma abort_each_fresh (ls : list listener) (ys : list xhr) : forall xs,
  Forall (fun l => l_abort l < length xs) ls ->
  abort_each ls (xs ++ ys) = abort_each ls xs ++ ys.
Proof.
  induction ls as [|l ls IH]; intros xs Hls; [done|].
  apply Forall_cons in Hls as [Hl Hls].
  change (abort_each (l :: ls) (xs ++ ys))
    with (abort_each ls (alter aborted (l_abort l) (xs ++ ys))).
  change (abort_each (l :: ls) xs) with (abort_each ls (alter aborted (l_abort l) xs)).
  rewrite alter_app_l by done. apply IH. by rewrite length_alter.
Qed.

(** X16. [abort()] does not cancel a signed upload that is still waiting
    for its policy: it only clears [isUploading], the signing request is
    not aborted, and when a policy arrives that gives a destination and
    form data, the upload request is sent all the same and [isUploading]
    is true again. *)
Theorem abort_while_signing (E : engine) (u : config)
    (shs hs : list (string * string)) (file : files_arg) (extra : value) (st : state)
    (e : loc) (h0 : heap) (l : loc) (json : object) (target : value)
    (fields : FormData) (s1 : nat) :
  quiet st -> bound st ->
  signingAjaxSettings_headers u = Some shs ->
  ajaxSettings_headers u = Some hs ->
  extra_object (heap_of st) extra = Some (e, h0) ->
  (match_get (signingMethod u) = false ->
   is_Some (JSON_stringify E (augmented file e h0) (VRef e))) ->
  augmented file e h0 !! l = Some json ->
  destination E (augmented file e h0) json = Ret target ->
  Uploader.createFormData u (<[l := stripped json]> (augmented file e h0)) file (VRef l)
  = Ret fields ->
  exists st1 st2 st3,
    SigningUploader.upload E u file extra st = (Ret (length (promises st) + 1), st1)
    /\ Uploader.abort st1 = (Ret tt, st2)
    /\ isUploading st2 = false
    /\ x_aborts <$> xhrs st2 !! length (xhrs st) = Some 0
    /\ deliver E u (length (xhrs st)) (Completed s1 (VRef l)) st2 = (Ret tt, st3)
    /\ isUploading st3 = true
    /\ x_sent <$> xhrs st3 !! (length (xhrs st) + 1)
       = Some [BodyForm fields].
Proof.
  intros Hq Hb Hshs Hhs Hextra Hjson Hl Htarget Hfields.
  destruct (sign_data_exists E u _ e Hjson) as (data & Hdata & _).
  rewrite (signed_upload_issued E u shs file extra st e h0 data Hshs Hextra Hdata).
  destruct st as [h up sg ls em xs ps]. unfold quiet, bound in Hq, Hb. simpl_state.
  eexists _, _, _. split; [reflexivity|].
  rewrite abort_eq. split; [reflexivity|].
  unfold triggered. simpl_state.
  destruct (quiet_filter_isAborting ls Hq) as [-> ->].
  rewrite abort_each_fresh by done.
  pose proof (signed_upload_started E u hs file l json s1 (augmented file e h0)
                false true [] (em ++ [("isAborting", [])]) (abort_each ls xs) ps
                (Xhr (signingMethod u) (signingUrl u)
                     (("Content-Type", "application/json") :: shs) []
                     (Some (SignHandlers (length ps))) [data] 0)
                target fields Hhs ltac:(constructor) eq_refl Hl Htarget Hfields)
    as Hstart.
  rewrite abort_each_length in Hstart.
  split; [done|].
  split; [by rewrite <- (abort_each_length ls xs), list_lookup_middle|].
  split; [exact Hstart|]. simpl_state. split; [done|].
  by rewrite <- (abort_each_length ls xs), lookup_snoc_at.
Qed.

Lemma abort_while_signing_witness :
  exists st1 st2 st3,
    SigningUploader.upload sample_engine configured (OneFile 0) (VRef 1)
      (State [photo; plain []; plain [("bucket", VStr "b")]] false false [] [] [] [])
    = (Ret 1, st1)
    /\ Uploader.abort st1 = (Ret tt, st2)
    /\ isUploading st2 = false
    /\ x_aborts <$> xhrs st2 !! 0 = Some 0
    /\ deliver sample_engine configured 0 (Completed 200 (VRef 2)) st2 = (Ret tt, st3)
    /\ isUploading st3 = true
    /\ x_sent <$> xhrs st3 !! 1
       = Some [BodyForm [("bucket", VStr "b"); ("file", VRef 0)]].
Proof.
  apply (abort_while_signing sample_engine configured [("Authorization", "k")]
           [("X-Token", "t")] (OneFile 0) (VRef 1)
           (State [photo; plain []; plain [("bucket", VStr "b")]] false false [] [] [] [])
           1 [photo; plain []; plain [("bucket", VStr "b")]]
           2 (plain [("bucket", VStr "b")])
           (VStr "https://b.s3.amazonaws.com") [("bucket", VStr "b"); ("file", VRef 0)]
           200);
    [constructor | constructor | reflexivity | reflexivity | reflexivity
    | discriminate | reflexivity | reflexivity | reflexivity].
Defined.

(** *** The registry of listeners *)

(** A computation that keeps the registry quiet and bound. *)
Definition keeps {A} (m : M A) : Prop :=
  forall st, quiet st -> bound st -> quiet (snd (m st)) /\ bound (snd (m st)).

Lemma keeps_ret {A} (a : A) : keeps (ret a).
Proof. by intros st. Qed.

Lemma keeps_throw {A} (e : exn) : keeps (@throw A e).
Proof. by intros st. Qed.

Lemma keeps_gets {A} (f : state -> A) : keeps (gets f).
Proof. by intros st. Qed.

Lemma keeps_on_heap {A} (f : heap -> outcome A) : keeps (on_heap f).
Proof. by intros st. Qed.

Lemma keeps_bind {A B} (m : M A) (k : A -> M B) :
  keeps m -> (forall a, keeps (k a)) -> keeps (bind m k).
Proof.
  intros Hm Hk st Hq Hb. unfold bind.
  destruct (Hm st Hq Hb) as [Hq' Hb'].
  destruct (m st) as [[a|e] st']; [by apply Hk|done].
Qed.

Lemma keeps_for_each {A} (f : A -> M unit) (xs : list A) :
  (forall x, keeps (f x)) -> keeps (for_each f xs).
Proof.
  intros Hf. induction xs as [|x xs IH]; cbn; [apply keeps_ret|].
  apply keeps_bind; [apply Hf|by intros _].
Qed.

(** Changes that do not touch the registry and do not drop a request. *)
Lemma keeps_frame {A} (m : M A) :
  (forall st, listeners (snd (m st)) = listeners st
              /\ length (xhrs st) <= length (xhrs (snd (m st)))) ->
  keeps m.
Proof.
  intros Hm st Hq Hb. destruct (Hm st) as [Hls Hlen].
  unfold quiet, bound in *. rewrite Hls. split; [done|].
  eapply Forall_impl; [exact Hb|]. cbn. intros l Hl. lia.
Qed.

Lemma keeps_heap (f : heap -> heap) : keeps (modify (with_heap f)).
Proof. apply keeps_frame. by intros []. Qed.

Lemma keeps_heap_get l k : keeps (heap_get l k).
Proof. apply keeps_gets. Qed.

Lemma keeps_alloc o : keeps (alloc o).
Proof. apply keeps_frame. by intros []. Qed.

Lemma keeps_isUploading b : keeps (modify (with_isUploading b)).
Proof. apply keeps_frame. by intros []. Qed.

Lemma keeps_isSigning b : keeps (modify (with_isSigning b)).
Proof. apply keeps_frame. by intros []. Qed.

Lemma keeps_promises (f : list promise -> list promise) :
  keeps (modify (with_promises f)).
Proof. apply keeps_frame. by intros []. Qed.

Lemma keeps_promise_new : keeps promise_new.
Proof. apply keeps_frame. by intros []. Qed.

Lemma keeps_xhr_update x f : keeps (xhr_update x f).
Proof.
  apply keeps_frame. intros []. cbn. split; [done|]. by rewrite length_alter.
Qed.

Lemma keeps_xhr_new : keeps xhr_new.
Proof.
  apply keeps_frame. intros []. cbn. split; [done|]. rewrite length_app. lia.
Qed.

Lemma keeps_set_headers x headers : keeps (set_headers x headers).
Proof.
  destruct headers as [hs|]; cbn; [|apply keeps_throw].
  apply keeps_for_each. intros kv. apply keeps_xhr_update.
Qed.

Lemma keeps_trigger name args : keeps (trigger name args).
Proof.
  intros st Hq Hb. rewrite trigger_eq. destruct st as [h up sg ls em xs ps].
  unfold quiet, bound, triggered in *. cbn [snd]. simpl_state.
  split; [by apply Forall_filter_keep|].
  rewrite abort_each_length. by apply Forall_filter_keep.
Qed.

Lemma keeps_ajax u target data meth : keeps (Uploader.ajax u target data meth).
Proof.
  intros st Hq Hb. destruct (ajaxSettings_headers u) as [hs|] eqn:Hhs.
  - rewrite (ajax_configured _ _ _ _ _ _ Hhs). unfold quiet, bound in *.
    cbn [snd]. simpl_state.
    split; [by apply quiet_registered|].
    apply Forall_app. split.
    + eapply Forall_impl; [exact Hb|]. cbn. intros l Hl. rewrite length_app. lia.
    + repeat constructor. cbn. rewrite length_app. cbn. lia.
  - rewrite (ajax_unconfigured _ _ _ _ _ Hhs).
    destruct st. unfold quiet, bound in *. cbn [snd]. simpl_state. split; [done|].
    eapply Forall_impl; [exact Hb|]. cbn. intros l Hl. rewrite length_app. lia.
Qed.

Create HintDb keeps.
#[local] Hint Resolve keeps_ret keeps_throw keeps_gets keeps_on_heap keeps_heap keeps_heap_get
  keeps_alloc keeps_isUploading keeps_isSigning keeps_promises keeps_promise_new
  keeps_xhr_update keeps_xhr_new keeps_set_headers keeps_trigger keeps_ajax : keeps.

(** Splits a sequence of steps and closes those that are primitive. *)
Ltac keeps_steps :=
  repeat first
    [ solve [auto with keeps]
    | progress (unfold heap_set, heap_delete, new_Error, promise_then, settle,
                xhr_open, xhr_setRequestHeader, xhr_set_handlers, xhr_send,
                xhr_abort, xhr_upload_addEventListener)
    | apply keeps_bind; [|intros ?] ].

Lemma keeps_member v k : keeps (member v k).
Proof. destruct v; cbn; auto with keeps. Qed.
#[local] Hint Resolve keeps_member : keeps.

Lemma keeps_delete_member v k : keeps (delete_member v k).
Proof. destruct v; cbn; keeps_steps. Qed.
#[local] Hint Resolve keeps_delete_member : keeps.

Lemma keeps_didUpload data : keeps (Uploader.didUpload data).
Proof. unfold Uploader.didUpload. keeps_steps. Qed.
#[local] Hint Resolve keeps_didUpload : keeps.

Lemma keeps_didError a b c : keeps (Uploader.didError a b c).
Proof.
  unfold Uploader.didError. keeps_steps.
  destruct a; keeps_steps.
  match goal with |- keeps (if ?t then _ else _) => destruct t end; keeps_steps.
  destruct c; keeps_steps.
Qed.
#[local] Hint Resolve keeps_didError : keeps.

Lemma keeps_didProgress E event : keeps (Uploader.didProgress E event).
Proof. unfold Uploader.didProgress. destruct event; keeps_steps. Qed.
#[local] Hint Resolve keeps_didProgress : keeps.

Lemma keeps_abort : keeps Uploader.abort.
Proof. unfold Uploader.abort. keeps_steps. Qed.
#[local] Hint Resolve keeps_abort : keeps.

Lemma keeps_upload u files extra : keeps (Uploader.upload u files extra).
Proof. unfold Uploader.upload. keeps_steps. Qed.
#[local] Hint Resolve keeps_upload : keeps.

Lemma keeps_didSign response : keeps (SigningUploader.didSign response).
Proof. unfold SigningUploader.didSign. keeps_steps. Qed.
#[local] Hint Resolve keeps_didSign : keeps.

Lemma keeps_didErrorOnSign a b c : keeps (SigningUploader.didErrorOnSign a b c).
Proof.
  unfold SigningUploader.didErrorOnSign. keeps_steps.
Qed.
#[local] Hint Resolve keeps_didErrorOnSign : keeps.

Lemma keeps_sign E u file extra : keeps (SigningUploader.sign E u file extra).
Proof.
  unfold SigningUploader.sign, SigningUploader.file_member. keeps_steps.
  - destruct extra; keeps_steps.
  - destruct file; keeps_steps.
  - destruct file; keeps_steps.
  - destruct file; keeps_steps.
  - destruct (match_get (signingMethod u)); keeps_steps.
    match goal with |- keeps (match ?t with _ => _ end) => destruct t end; keeps_steps.
Qed.
#[local] Hint Resolve keeps_sign : keeps.

Lemma keeps_upload_then E u file json :
  keeps (SigningUploader.upload_then E u file json).
Proof.
  unfold SigningUploader.upload_then. keeps_steps.
  match goal with |- keeps (if ?t then _ else _) => destruct t end; keeps_steps.
  match goal with |- keeps (if ?t then _ else _) => destruct t end; keeps_steps.
Qed.
#[local] Hint Resolve keeps_upload_then : keeps.

Lemma keeps_signed_upload E u file extra :
  keeps (SigningUploader.upload E u file extra).
Proof. unfold SigningUploader.upload. keeps_steps. Qed.
#[local] Hint Resolve keeps_signed_upload : keeps.

Lemma keeps_react_fulfilled E u v r : keeps (react_fulfilled E u v r).
Proof.
  destruct r as [file derived|derived]; cbn [react_fulfilled]; [|keeps_steps].
  intros st Hq Hb.
  destruct (keeps_upload_then E u file v st Hq Hb) as [Hq' Hb'].
  destruct (SigningUploader.upload_then E u file v st) as [[inner|e] st'];
    cbn [snd] in Hq', Hb'.
  - by apply (keeps_promises _ st').
  - by apply (keeps_promises _ st').
Qed.
#[local] Hint Resolve keeps_react_fulfilled : keeps.

Lemma keeps_react_rejected why r : keeps (react_rejected why r).
Proof. destruct r; cbn; keeps_steps. Qed.
#[local] Hint Resolve keeps_react_rejected : keeps.

Lemma keeps_resolve E u p v : keeps (resolve E u p v).
Proof.
  unfold resolve, pending_reactions. keeps_steps.
  match goal with |- keeps (match ?t with _ => _ end) => destruct t end; keeps_steps.
  apply keeps_for_each. auto with keeps.
Qed.
#[local] Hint Resolve keeps_resolve : keeps.

Lemma keeps_reject p why : keeps (reject p why).
Proof.
  unfold reject, pending_reactions. keeps_steps.
  match goal with |- keeps (match ?t with _ => _ end) => destruct t end; keeps_steps.
  apply keeps_for_each. auto with keeps.
Qed.
#[local] Hint Resolve keeps_reject : keeps.

Lemma keeps_deliver E u x ev : keeps (deliver E u x ev).
Proof.
  unfold deliver. keeps_steps.
  match goal with |- keeps (match ?t with _ => _ end) => destruct t as [r|] end;
    [|destruct ev; keeps_steps].
  destruct ev as [evt|status response|evt].
  - apply keeps_for_each. intros cb. unfold Uploader.call, Uploader.run_body.
    destruct cb as [[]|[]]; keeps_steps.
  - destruct (x_handlers r) as [[p|p]|]; keeps_steps.
  - destruct (x_handlers r) as [[p|p]|]; keeps_steps.
Qed.
#[local] Hint Resolve keeps_deliver : keeps.

(** X17. Whatever the application calls on a new uploader and whatever
    its transports report, in whatever order and whether or not a call
    throws, the uploader has registered on itself nothing but one-shot
    [isAborting] listeners, each of them for a request that it has
    created. *)
Theorem registry_invariant (E : engine) (u : config) (h : heap) (acts : list action) :
  quiet (history E u h acts) /\ bound (history E u h acts).
Proof.
  unfold history.
  assert (Hgen : forall st, quiet st -> bound st ->
            quiet (foldl (fun st a => perform E u a st) st acts)
            /\ bound (foldl (fun st a => perform E u a st) st acts)).
  { induction acts as [|a acts IH]; intros st Hq Hb; [done|].
    cbn [foldl].
    assert (quiet (perform E u a st) /\ bound (perform E u a st)) as [Hq' Hb'].
    { destruct a; cbn [perform];
        first [ by apply keeps_upload | by apply keeps_abort | by apply keeps_ajax
              | by apply keeps_signed_upload | by apply keeps_sign
              | by apply keeps_didUpload | by apply keeps_didError
              | by apply keeps_didProgress | by apply keeps_didSign
              | by apply keeps_didErrorOnSign | by apply keeps_deliver ]. }
    by apply IH. }
  apply Hgen; constructor.
Qed.

(** *** Progress events and failing calls *)

(** X18. No progress event of the transport reaches the application: for
    the request that [upload] has sent, an upload progress event makes the
    listener installed by [ajaxPromise] throw a type error, and nothing
    changes, no [percent] is stored and no [progress] event is emitted. *)
Theorem progress_never_reported (E : engine) (u : config) (hs : list (string * string))
    (files : files_arg) (extra : value) (st : state) (fields : FormData) (evt : value) :
  ajaxSettings_headers u = Some hs ->
  Uploader.createFormData u (heap_of st) files extra = Ret fields ->
  exists st1,
    Uploader.upload u files extra st = (Ret (length (promises st)), st1)
    /\ deliver E u (length (xhrs st)) (Progress evt) st1
       = (Throw (TypeError "this.didProgress is not a function"), st1).
Proof.
  intros Hhs Hfields. rewrite (upload_configured u hs files extra st fields Hhs Hfields).
  eexists. split; [reflexivity|].
  unfold deliver. unfold bind at 1, gets at 1. simpl_state.
  by rewrite list_lookup_middle.
Qed.

Lemma progress_never_reported_witness :
  exists st1,
    Uploader.upload configured (OneFile 0) VUndefined
      (State [photo; plain [("loaded", VNum 5); ("total", VNum 10)]]
             false false [] [] [] [])
    = (Ret 0, st1)
    /\ deliver sample_engine configured 0 (Progress (VRef 1)) st1
       = (Throw (TypeError "this.didProgress is not a function"), st1).
Proof.
  exact (progress_never_reported sample_engine configured [("X-Token", "t")]
           (OneFile 0) VUndefined
           (State [photo; plain [("loaded", VNum 5); ("total", VNum 10)]]
                  false false [] [] [] [])
           [("file", VRef 0)] (VRef 1) eq_refl eq_refl).
Defined.

Lemma sign_unconfigured_flags E u file extra st :
  signingAjaxSettings_headers u = None ->
  exists msg st',
    SigningUploader.sign E u file extra st = (Throw (TypeError msg), st')
    /\ promises st' = promises st
    /\ isSigning st' = isSigning st
    /\ isUploading st' = isUploading st
    /\ emitted st' = emitted st
    /\ nothing_sent st st'.
Proof.
  intros Hhs. destruct st as [h up sg ls em xs ps].
  unfold SigningUploader.sign, set_headers. rewrite Hhs.
  destruct extra as [| |b|x|s|l];
    try (eexists _, _; split; [reflexivity|];
         repeat split; by apply nothing_sent_same).
  all: destruct file as [f|fs|fs];
    unfold bind, alloc, ret, throw, gets, heap_get, heap_set, modify, with_heap,
      SigningUploader.file_member, xhr_new, xhr_open, xhr_setRequestHeader,
      xhr_update, with_xhrs;
    cbn;
    destruct (match_get (signingMethod u)); cbn;
    try (lazymatch goal with
         | |- context [JSON_stringify ?E ?h ?v] => destruct (JSON_stringify E h v)
         end; cbn);
    rewrite ?alter_last; cbn;
    eexists _, _; (split; [reflexivity|]); cbn;
    (repeat split; try done);
    first [ by apply nothing_sent_same
          | by eapply nothing_sent_push; cbn; [reflexivity|] ].
Qed.

(** X19. Without a configured signing header mapping,
    [SigningUploader.upload] throws the type error of [sign] to its caller
    instead of returning a rejected deferred: no deferred exists
    afterwards, no request has been sent, no event has been emitted and
    both flags are as they were. *)
Theorem signed_upload_unconfigured_throws (E : engine) (u : config)
    (file : files_arg) (extra : value) (st : state) :
  signingAjaxSettings_headers u = None ->
  exists msg st',
    SigningUploader.upload E u file extra st = (Throw (TypeError msg), st')
    /\ promises st' = promises st
    /\ isSigning st' = isSigning st
    /\ isUploading st' = isUploading st
    /\ emitted st' = emitted st
    /\ nothing_sent st st'.
Proof.
  intros Hhs.
  destruct (sign_unconfigured_flags E u file extra st Hhs) as (msg & st' & Hrun & H).
  exists msg, st'. split; [|exact H].
  unfold SigningUploader.upload, bind. by rewrite Hrun.
Qed.

Lemma signed_upload_unconfigured_throws_witness :
  exists msg st',
    SigningUploader.upload sample_engine defaults (OneFile 0) VUndefined
      (State [photo] false false [] [] [] []) = (Throw (TypeError msg), st')
    /\ promises st' = []
    /\ isSigning st' = false
    /\ isUploading st' = false
    /\ emitted st' = []
    /\ nothing_sent (State [photo] false false [] [] [] []) st'.
Proof.
  exact (signed_upload_unconfigured_throws sample_engine defaults (OneFile 0) VUndefined
           (State [photo] false false [] [] [] []) eq_refl).
Defined.

(** X20. For a signing method other than GET, an [extra] that
    [JSON.stringify] cannot serialise makes [sign] throw before any
    request is created, but after it has written [name], [type] and
    [size] into the caller's [extra]; nothing else has changed. *)
Theorem sign_unserialisable_throws (E : engine) (u : config) (file : files_arg)
    (extra : value) (st : state) (e : loc) (h0 : heap) :
  extra_object (heap_of st) extra = Some (e, h0) ->
  match_get (signingMethod u) = false ->
  JSON_stringify E (augmented file e h0) (VRef e) = None ->
  exists msg,
    SigningUploader.sign E u file extra st
    = (Throw (TypeError msg),
       State (augmented file e h0) (isUploading st) (isSigning st) (listeners st)
             (emitted st) (xhrs st) (promises st)).
Proof.
  intros Hextra Hget Hjson. destruct st as [h up sg ls em xs ps]. simpl_state.
  assert (Hrun :
    match extra with
    | VUndefined => alloc (plain [])
    | VRef l => ret l
    | _ => throw (TypeError "Cannot create property 'name'")
    end (State h up sg ls em xs ps)
    = (Ret e, State h0 up sg ls em xs ps)).
  { destruct extra; cbn in Hextra; try discriminate;
      injection Hextra as <- <-; reflexivity. }
  unfold SigningUploader.sign. unfold bind at 1. rewrite Hrun.
  assert (Hfile : forall k h1 up sg ls em xs ps,
    SigningUploader.file_member file k (State h1 up sg ls em xs ps)
    = (Ret (file_prop h1 file k), State h1 up sg ls em xs ps)).
  { intros. by destruct file. }
  do 3 (unfold bind at 1; rewrite Hfile; unfold bind at 1;
        unfold heap_set at 1, modify, with_heap;
        cbn [heap_of isUploading isSigning listeners emitted xhrs promises]).
  fold (assign_from file "name" e h0).
  fold (assign_from file "type" e (assign_from file "name" e h0)).
  fold (assign_from file "size" e (assign_from file "type" e (assign_from file "name" e h0))).
  fold (augmented file e h0).
  rewrite Hget. unfold bind, gets, throw. simpl_state. rewrite Hjson.
  by eexists.
Qed.

Lemma sign_unserialisable_throws_witness :
  exists msg,
    SigningUploader.sign (Engine (fun _ => "NaN") (fun _ => nan) (fun _ _ => None))
      (Config VNull "POST" None "file" None (VStr "/sign") "POST" (Some []))
      (OneFile 0) (VRef 1)
      (State [photo; plain []] false false [] [] [] [])
    = (Throw (TypeError msg),
       State [photo; plain [("name", VStr "a.png"); ("type", VStr "image/png");
                            ("size", VNum 3)]]
             false false [] [] [] []).
Proof.
  exact (sign_unserialisable_throws
           (Engine (fun _ => "NaN") (fun _ => nan) (fun _ _ => None))
           (Config VNull "POST" None "file" None (VStr "/sign") "POST" (Some []))
           (OneFile 0) (VRef 1) (State [photo; plain []] false false [] [] [] [])
           1 [photo; plain []] eq_refl eq_refl eq_refl).
Defined.

(** *** Values that cannot be used *)

Lemma append_own_shadowed (u : config) (o : object) (ks : list string) (fd : FormData) :
  has_prop o "hasOwnProperty" = true ->
  ks <> [] ->
  Uploader.append_own u o ks fd
  = Throw (TypeError "extra.hasOwnProperty is not a function").
Proof.
  intros Hcall Hks. destruct ks as [|k ks]; [done|].
  cbn [Uploader.append_own]. unfold Uploader.call_hasOwnProperty. by rewrite Hcall.
Qed.

(** X21. An [extra] object that has a property named [hasOwnProperty],
    and some key to enumerate, stops [upload] before it has done
    anything: the guard of the loop in [createFormData] throws a type
    error, [isUploading] is not set and no request is created. *)
Theorem upload_shadowed_guard_throws (u : config) (files : files_arg) (l : loc)
    (o : object) (st : state) :
  heap_of st !! l = Some o ->
  has_prop o "hasOwnProperty" = true ->
  for_in_keys o <> [] ->
  Uploader.upload u files (VRef l) st
  = (Throw (TypeError "extra.hasOwnProperty is not a function"), st).
Proof.
  intros Hl Hcall Hkeys.
  unfold Uploader.upload, bind, on_heap, Uploader.createFormData, Uploader.extra_fields.
  rewrite Hl. by rewrite (append_own_shadowed u o _ [] Hcall Hkeys).
Qed.

Lemma upload_shadowed_guard_throws_witness :
  Uploader.upload configured (OneFile 0) (VRef 1)
    (State [photo; plain [("caption", VStr "hi"); ("hasOwnProperty", VStr "x")]]
           false false [] [] [] [])
  = (Throw (TypeError "extra.hasOwnProperty is not a function"),
     State [photo; plain [("caption", VStr "hi"); ("hasOwnProperty", VStr "x")]]
           false false [] [] [] []).
Proof.
  exact (upload_shadowed_guard_throws configured (OneFile 0) 1
           (plain [("caption", VStr "hi"); ("hasOwnProperty", VStr "x")])
           (State [photo; plain [("caption", VStr "hi"); ("hasOwnProperty", VStr "x")]]
                  false false [] [] [] [])
           eq_refl eq_refl ltac:(discriminate)).
Defined.

(** X22. A policy object that gives no destination, because [region] or
    [bucket] cannot be converted to a string, or no form data, because
    the guard of [createFormData] throws, does not surface as a thrown
    error either: the deferred that [SigningUploader.upload] returned is
    rejected with the error, no upload request is created, and
    [isUploading], set before the policy is looked at, stays true. *)
Theorem signed_upload_unusable_policy (E : engine) (u : config)
    (shs : list (string * string)) (file : files_arg) (extra : value) (st : state)
    (e : loc) (h0 : heap) (l : loc) (json : object) (s1 : nat) (err : exn) :
  quiet st ->
  signingAjaxSettings_headers u = Some shs ->
  extra_object (heap_of st) extra = Some (e, h0) ->
  (match_get (signingMethod u) = false ->
   is_Some (JSON_stringify E (augmented file e h0) (VRef e))) ->
  augmented file e h0 !! l = Some json ->
  match destination E (augmented file e h0) json with
  | Throw unconvertible => unconvertible = err
  | Ret _ =>
      Uploader.createFormData u (<[l := stripped json]> (augmented file e h0))
        file (VRef l) = Throw err
  end ->
  exists st1 st2,
    SigningUploader.upload E u file extra st = (Ret (length (promises st) + 1), st1)
    /\ deliver E u (length (xhrs st)) (Completed s1 (VRef l)) st1 = (Ret tt, st2)
    /\ p_state <$> promises st2 !! (length (promises st) + 1)
       = Some (Rejected (RError err))
    /\ length (xhrs st2) = length (xhrs st) + 1
    /\ emitted st2 = emitted st ++ [("didSign", [VRef l])]
    /\ isUploading st2 = true.
Proof.
  intros Hq Hshs Hextra Hjson Hl Herr.
  destruct (sign_data_exists E u _ e Hjson) as (data & Hdata & _).
  rewrite (signed_upload_issued E u shs file extra st e h0 data Hshs Hextra Hdata).
  destruct st as [h up sg ls em xs ps]. unfold quiet in Hq. simpl_state.
  match goal with
  | |- exists st1 st2, (_, ?ST) = _ /\ _ =>
      cut (exists st2,
             deliver E u (length xs) (Completed s1 (VRef l)) ST = (Ret tt, st2)
             /\ p_state <$> promises st2 !! (length ps + 1)
                = Some (Rejected (RError err))
             /\ length (xhrs st2) = length xs + 1
             /\ emitted st2 = em ++ [("didSign", [VRef l])]
             /\ isUploading st2 = true);
      [intros (st2 & Hrest); exists ST, st2; split; [reflexivity|exact Hrest]|]
  end.
  rewrite (deliver_sign_completed E u _ (length xs)
             (Xhr (signingMethod u) (signingUrl u)
                  (("Content-Type", "application/json") :: shs) []
                  (Some (SignHandlers (length ps))) [data] 0)
             (length ps) (length ps + 1) file s1 (VRef l));
    [|done|by apply list_lookup_middle|done|by apply list_lookup_middle].
  simpl_state. rewrite alter_snoc2_fst. cbn [settle_in p_state p_reactions].
  unfold bind at 1. cbn [react_fulfilled].
  rewrite (upload_then_run E u file l json) by done. simpl_state.
  replace (length ps + 1) with (S (length ps)) by lia.
  destruct (destination E (augmented file e h0) json) as [target|unconvertible].
  - cbv zeta. cbn [heap_of]. rewrite Herr.
    unfold settle, modify, ret. simpl_state.
    eexists. split; [reflexivity|]. simpl_state.
    rewrite alter_snoc2_snd, lookup_snoc2_snd. cbn [settle_in p_state].
    split; [reflexivity|]. split; [by rewrite length_app|done].
  - subst unconvertible.
    unfold settle, modify, ret. simpl_state.
    eexists. split; [reflexivity|]. simpl_state.
    rewrite alter_snoc2_snd, lookup_snoc2_snd. cbn [settle_in p_state].
    split; [reflexivity|]. split; [by rewrite length_app|done].
Qed.

Lemma signed_upload_unusable_policy_witness :
  exists st1 st2,
    SigningUploader.upload sample_engine configured (OneFile 0) (VRef 1)
      (State [photo; plain []; plain [("toString", VStr "eu-west-1")];
              plain [("region", VRef 2); ("bucket", VStr "b")]]
             false false [] [] [] [])
    = (Ret 1, st1)
    /\ deliver sample_engine configured 0 (Completed 200 (VRef 3)) st1 = (Ret tt, st2)
    /\ p_state <$> promises st2 !! 1
       = Some (Rejected (RError (TypeError "Cannot convert object to primitive value")))
    /\ length (xhrs st2) = 1
    /\ emitted st2 = [("didSign", [VRef 3])]
    /\ isUploading st2 = true.
Proof.
  apply (signed_upload_unusable_policy sample_engine configured [("Authorization", "k")]
           (OneFile 0) (VRef 1)
           (State [photo; plain []; plain [("toString", VStr "eu-west-1")];
                   plain [("region", VRef 2); ("bucket", VStr "b")]]
                  false false [] [] [] [])
           1 [photo; plain []; plain [("toString", VStr "eu-west-1")];
              plain [("region", VRef 2); ("bucket", VStr "b")]]
           3 (plain [("region", VRef 2); ("bucket", VStr "b")]) 200
           (TypeError "Cannot convert object to primitive value"));
    [constructor | reflexivity | reflexivity | discriminate | reflexivity | reflexivity].
Defined.

(** X23. An event whose [loaded] or [total] cannot be converted to a
    number makes [didProgress] throw before it has changed anything: the
    event gets no [percent] and no [progress] event is emitted. *)
Theorem didProgress_unconvertible (E : engine) (l : loc) (event : object) (st : state)
    (err : exn) :
  heap_of st !! l = Some event ->
  match ToNumber E (heap_of st) (get_prop event "loaded") with
  | Throw unconvertible => unconvertible = err
  | Ret _ => ToNumber E (heap_of st) (get_prop event "total") = Throw err
  end ->
  Uploader.didProgress E (VRef l) st = (Throw err, st).
Proof.
  intros Hl Herr. destruct st as [h up sg ls em xs ps]. simpl_state.
  unfold Uploader.didProgress, bind, heap_get, gets, on_heap. simpl_state.
  rewrite Hl. cbn [from_option].
  destruct (ToNumber E h (get_prop event "loaded")) as [loaded|unconvertible].
  - by rewrite Herr.
  - by subst.
Qed.

Lemma didProgress_unconvertible_witness :
  Uploader.didProgress sample_engine (VRef 0)
    (State [plain [("loaded", VRef 1); ("total", VNum 10)];
            plain [("toString", VStr "5")]]
           true false [] [] [] [])
  = (Throw (TypeError "Cannot convert object to primitive value"),
     State [plain [("loaded", VRef 1); ("total", VNum 10)];
            plain [("toString", VStr "5")]]
           true false [] [] [] []).
Proof.
  exact (didProgress_unconvertible sample_engine 0
           (plain [("loaded", VRef 1); ("total", VNum 10)])
           (State [plain [("loaded", VRef 1); ("total", VNum 10)];
                   plain [("toString", VStr "5")]]
                  true false [] [] [] [])
           (TypeError "Cannot convert object to primitive value")
           eq_refl eq_refl).
Defined.
